(** * tensorqtl/pgen.py: identifier indexing, sample selection and retrieval

    A shallow embedding of [tensorqtl/pgen.py].  Python exceptions become an
    error type, the calls made to the external decoder ([pgenlib.PgenReader])
    are recorded in a trace, and the [Pgen] object becomes a record whose
    methods return the updated record. *)

From Stdlib Require Import ZArith QArith.
From stdpp Require Import gmap strings list sorting.

Open Scope Z_scope.
Open Scope nat_scope.

(** ** Exceptions and results *)

(** The exceptions the module can surface.  [KeyError] comes from a missing
    dict key, [ValueError] from [list.index], from [np.zeros] with a negative
    dimension and from [pd.DataFrame] with mismatched labels, [IndexError]
    from list subscripts, [OverflowError] from [np.array] with an integer
    that does not fit the dtype, [DecoderError] is anything raised by
    pgenlib. *)
Inductive exn := KeyError | ValueError | IndexError | OverflowError | DecoderError.

Inductive result (A : Type) : Type :=
  | Ok (a : A)
  | Err (e : exn).
Arguments Ok {A} a.
Arguments Err {A} e.

#[global] Instance result_ret : MRet result := fun A a => Ok a.
#[global] Instance result_bind : MBind result := fun A B f m =>
  match m with Ok a => f a | Err e => Err e end.
#[global] Instance result_fmap : FMap result := fun A B f m =>
  match m with Ok a => Ok (f a) | Err e => Err e end.
#[global] Instance result_throw : MThrow exn result := fun A e => Err e.

#[global] Instance exn_eq_dec : EqDecision exn.
Proof. solve_decision. Defined.

(** ** Python list and dict primitives *)

(** [l.index(x)]: position of the first element equal to [x];
    [ValueError] when there is none. *)
Fixpoint list_index (x : string) (l : list string) : result nat :=
  match l with
  | [] => Err ValueError
  | y :: l' => if decide (y = x) then Ok 0 else S <$> list_index x l'
  end.

(** [l[i]] for a non-negative [i]. *)
Definition list_get {A} (l : list A) (i : nat) : result A :=
  match l !! i with Some a => Ok a | None => Err IndexError end.

(** [d[k]]. *)
Definition dict_get {V} (d : gmap string V) (k : string) : result V :=
  match d !! k with Some v => Ok v | None => Err KeyError end.

(** [enumerate(l)]. *)
Definition enumerate {A} (l : list A) : list (nat * A) :=
  zip (seq 0 (length l)) l.

(** [{i: k for k, i in enumerate(ids)}]: the pairs are inserted from left to
    right, a later insertion of the same key replaces the earlier one. *)
Definition dict_of_enumerate (ids : list string) : gmap string nat :=
  foldl (fun d ki => <[ki.2 := ki.1]> d) ∅ (enumerate ids).

(** ** numpy primitives *)

(** The order [np.argsort] sorts indices by: the keys they point to. *)
Definition key_le (keys : list nat) (i j : nat) : Prop :=
  default 0 (keys !! i) <= default 0 (keys !! j).

#[global] Instance key_le_dec keys i j : Decision (key_le keys i j).
Proof. unfold key_le. apply _. Defined.

(** [np.argsort(keys)]: the indices [0 .. len(keys)-1] ordered by key.  How
    numpy orders indices with equal keys is unspecified for the default kind;
    [set_samples_sort_true] below shows that the lists [set_samples] builds
    from the result do not depend on it. *)
Definition np_argsort (keys : list nat) : list nat :=
  merge_sort (key_le keys) (seq 0 (length keys)).

(** A dtype: the element type of a numpy buffer with the value [np.zeros]
    fills it with.  The [dtype] argument of the dosage functions
    ([np.float32] or [np.float64]) is the type parameter [D]. *)
Class Dtype (D : Type) := np_zero : D.

(** [np.int32], the dtype of the allele buffers. *)
#[global] Instance int32_dtype : Dtype Z := 0%Z.

(** A two-dimensional array: its shape and its rows.  The shape is kept
    apart from the rows because an array with no row still has a width. *)
Record ndarray (D : Type) := NdArray {
  nd_rows : nat;
  nd_cols : nat;
  nd_data : list (list D)
}.
Arguments NdArray {D} _ _ _.
Arguments nd_rows {D} _.
Arguments nd_cols {D} _.
Arguments nd_data {D} _.

(** [np.zeros(n, dtype)]. *)
Definition np_zeros1 `{Dtype D} (n : nat) : list D := replicate n np_zero.

(** [np.zeros([rows, cols], dtype)]; numpy raises [ValueError] (negative
    dimensions are not allowed) when [rows] is negative. *)
Definition np_zeros2 `{Dtype D} (rows : Z) (cols : nat) : result (ndarray D) :=
  if (rows <? 0)%Z then Err ValueError
  else Ok (NdArray (Z.to_nat rows) cols
             (replicate (Z.to_nat rows) (replicate cols np_zero))).

(** The integers [np.uint32] holds: those below [2^32]. *)
Definition fits_uint32 (n : nat) : bool := (Z.of_nat n <? 4294967296)%Z.

(** [np.array(l, dtype=np.uint32)] on a list of non-negative integers: numpy
    raises [OverflowError] when one of them is out of bounds for [uint32]
    (numpy before 2.0 wrapped such a value instead, with a warning). *)
Definition np_array_uint32 (l : list nat) : result (list nat) :=
  if forallb fits_uint32 l then Ok l else Err OverflowError.

(** The first statement of every retrieval function:
    [if sample_subset is not None:
       sample_subset = np.array(sample_subset, dtype=np.uint32)]. *)
Definition subset_as_uint32 (sample_subset : option (list nat))
    : result (option (list nat)) :=
  match sample_subset with
  | None => Ok None
  | Some l => Some <$> np_array_uint32 l
  end.

(** [a[start::2]] on one axis. *)
Fixpoint every_other {A} (l : list A) : list A :=
  match l with
  | [] => []
  | [x] => [x]
  | x :: _ :: l' => x :: every_other l'
  end.

Definition slice_step2 {A} (start : nat) (l : list A) : list A :=
  every_other (drop start l).

(** [a[:, start::2]] for [start] 0 or 1. *)
Definition nd_slice_cols_step2 {D} (start : nat) (a : ndarray D) : ndarray D :=
  NdArray (nd_rows a) ((nd_cols a + 1 - start) / 2)
          (slice_step2 start <$> nd_data a).

(** ** pandas primitives *)

Record DataFrame (D : Type) := MkDataFrame {
  df_values : ndarray D;
  df_index : list string;
  df_columns : list string
}.
Arguments MkDataFrame {D} _ _ _.
Arguments df_values {D} _.
Arguments df_index {D} _.
Arguments df_columns {D} _.

(** [pd.DataFrame(data, index=index, columns=columns)]: pandas raises
    [ValueError] when the labels do not match the shape of [data]. *)
Definition pd_DataFrame {D} (data : ndarray D) (index columns : list string)
    : result (DataFrame D) :=
  if (nd_rows data =? length index) && (nd_cols data =? length columns)
  then Ok (MkDataFrame data index columns)
  else Err ValueError.

(** ** The external decoder

    [pgenlib.PgenReader] is not part of the module.  It is modelled as a
    reader over a table of genotypes, after the decoder contract of the
    specification (section 6): a reader is opened on a file with an optional
    subset of sample positions, which must be sorted (strictly increasing)
    and within the file's sample count, and decodes variants into the
    leading entries of a buffer supplied by the caller.  Every call made to
    it is recorded. *)

(** Modelled from the spec: the contents of the binary genotype store the
    decoder reads, seen at dtype [D]: dosages per variant and sample, and the
    two allele codes per variant and sample. *)
Record pgen_store (D : Type) := PgenStore {
  raw_variant_ct : nat;
  raw_sample_ct : nat;
  dosage_at : nat -> nat -> D;          (* variant, sample *)
  alleles_at : nat -> nat -> Z * Z      (* variant, sample *)
}.
Arguments PgenStore {D} _ _ _ _.
Arguments raw_variant_ct {D} _.
Arguments raw_sample_ct {D} _.
Arguments dosage_at {D} _ _ _.
Arguments alleles_at {D} _ _ _.

(** Modelled from the spec: the calls of the decoder contract, as they are
    recorded. *)
Inductive event :=
  | EvOpen (sample_subset : option (list nat))
  | EvRawSampleCt
  | EvReadDosages (variant_idx : nat)
  | EvReadAlleles (variant_idx : nat)
  | EvReadDosagesList (variant_idxs : list nat)
  | EvReadAllelesList (variant_idxs : list nat)
  | EvReadDosagesRange (variant_idx_start variant_idx_end : Z)
  | EvReadAllelesRange (variant_idx_start variant_idx_end : Z)
  | EvClose.

#[global] Instance event_eq_dec : EqDecision event.
Proof. solve_decision. Defined.

(** Computations that call the decoder: the trace of calls made so far is
    threaded through, and an exception keeps the trace. *)
Definition io (A : Type) : Type := list event -> result A * list event.

#[global] Instance io_ret : MRet io := fun A a tr => (Ok a, tr).
#[global] Instance io_bind : MBind io := fun A B f m tr =>
  match m tr with
  | (Ok a, tr') => f a tr'
  | (Err e, tr') => (Err e, tr')
  end.
#[global] Instance io_throw : MThrow exn io := fun A e tr => (Err e, tr).

(** Records a call. *)
Definition emit (e : event) : io unit := fun tr => (Ok tt, tr ++ [e]).

(** A computation that does not call the decoder. *)
Definition lift {A} (r : result A) : io A := fun tr => (r, tr).

(** Runs a computation from the empty trace. *)
Definition run {A} (m : io A) : result A * list event := m [].

(** Modelled from the spec: the order the decoder requires of a sample
    subset; a repeated position is not in order. *)
Fixpoint strictly_increasing (l : list nat) : bool :=
  match l with
  | [] => true
  | x :: l' =>
      match l' with
      | [] => true
      | y :: _ => (x <? y) && strictly_increasing l'
      end
  end.

(** Modelled from the spec: the subsets the decoder accepts on opening, a
    sorted sequence of [uint32] positions within the file's sample count. *)
Definition subset_ok {D} (st : pgen_store D) (sample_subset : option (list nat)) : bool :=
  match sample_subset with
  | None => true
  | Some l =>
      strictly_increasing l && forallb fits_uint32 l
      && forallb (fun i => i <? raw_sample_ct st) l
  end.

(** Modelled from the spec: an open reader, the file and the sample positions
    it decodes, in order. *)
Record PgenReader (D : Type) := MkReader {
  rd_store : pgen_store D;
  rd_samples : list nat
}.
Arguments MkReader {D} _ _.
Arguments rd_store {D} _.
Arguments rd_samples {D} _.

(** Modelled from the spec: [pg.PgenReader(path, sample_subset=...)], which
    refuses a subset that is not accepted. *)
Definition pg_open {D} (st : pgen_store D) (sample_subset : option (list nat))
    : io (PgenReader D) :=
  emit (EvOpen sample_subset);;
  if subset_ok st sample_subset
  then mret (MkReader st (default (seq 0 (raw_sample_ct st)) sample_subset))
  else mthrow DecoderError.

(** [with pg.PgenReader(...) as r: body]: the reader is closed on every way
    out of the body. *)
Definition with_reader {D A} (st : pgen_store D) (sample_subset : option (list nat))
    (body : PgenReader D -> io A) : io A := fun tr =>
  match pg_open st sample_subset tr with
  | (Ok r, tr1) => let '(res, tr2) := body r tr1 in (res, tr2 ++ [EvClose])
  | (Err e, tr1) => (Err e, tr1)
  end.

(** Modelled from the spec: [r.get_raw_sample_ct()]. *)
Definition get_raw_sample_ct {D} (r : PgenReader D) : io nat :=
  emit EvRawSampleCt;; mret (raw_sample_ct (rd_store r)).

(** Modelled from the spec: what the reader decodes for one variant, a dosage
    per decoded sample. *)
Definition dosage_row {D} (r : PgenReader D) (v : nat) : list D :=
  dosage_at (rd_store r) v <$> rd_samples r.

(** Modelled from the spec: the two allele codes of each decoded sample, at
    positions [2n] and [2n+1] for the [n]-th of them. *)
Definition allele_row {D} (r : PgenReader D) (v : nat) : list Z :=
  flat_map (fun s => let '(a, b) := alleles_at (rd_store r) v s in [a; b])
           (rd_samples r).

(** Modelled from the spec: writing decoded values over the leading entries
    of a buffer. *)
Definition overwrite {A} (new old : list A) : list A :=
  new ++ drop (length new) old.

(** Modelled from the spec: the same for the leading rows of a
    two-dimensional buffer. *)
Definition fill_rows {A} (new : list (list A)) (buf : ndarray A) : ndarray A :=
  NdArray (nd_rows buf) (nd_cols buf)
          (zip_with overwrite new (nd_data buf) ++ drop (length new) (nd_data buf)).

(** Modelled from the spec: [r.read_dosages(variant_idx, buf)]; the variant
    must exist and the buffer must have room for the decoded samples. *)
Definition r_read_dosages {D} (r : PgenReader D) (variant_idx : nat) (buf : list D)
    : io (list D) :=
  emit (EvReadDosages variant_idx);;
  if (variant_idx <? raw_variant_ct (rd_store r)) && (length (rd_samples r) <=? length buf)
  then mret (overwrite (dosage_row r variant_idx) buf)
  else mthrow DecoderError.

(** Modelled from the spec: [r.read_alleles(variant_idx, buf)]. *)
Definition r_read_alleles {D} (r : PgenReader D) (variant_idx : nat) (buf : list Z)
    : io (list Z) :=
  emit (EvReadAlleles variant_idx);;
  if (variant_idx <? raw_variant_ct (rd_store r)) && (2 * length (rd_samples r) <=? length buf)
  then mret (overwrite (allele_row r variant_idx) buf)
  else mthrow DecoderError.

(** Modelled from the spec: [r.read_dosages_list(variant_idxs, buf)]; one row
    per listed variant, in the order listed. *)
Definition r_read_dosages_list {D} (r : PgenReader D) (variant_idxs : list nat)
    (buf : ndarray D) : io (ndarray D) :=
  emit (EvReadDosagesList variant_idxs);;
  if forallb (fun v => v <? raw_variant_ct (rd_store r)) variant_idxs
     && (length variant_idxs <=? nd_rows buf)
     && (length (rd_samples r) <=? nd_cols buf)
  then mret (fill_rows (dosage_row r <$> variant_idxs) buf)
  else mthrow DecoderError.

(** Modelled from the spec: [r.read_alleles_list(variant_idxs, buf)]. *)
Definition r_read_alleles_list {D} (r : PgenReader D) (variant_idxs : list nat)
    (buf : ndarray Z) : io (ndarray Z) :=
  emit (EvReadAllelesList variant_idxs);;
  if forallb (fun v => v <? raw_variant_ct (rd_store r)) variant_idxs
     && (length variant_idxs <=? nd_rows buf)
     && (2 * length (rd_samples r) <=? nd_cols buf)
  then mret (fill_rows (allele_row r <$> variant_idxs) buf)
  else mthrow DecoderError.

(** Modelled from the spec: the variants of the half-open range the decoder
    is given, from [variant_idx_start] up to [variant_idx_end] excluded. *)
Definition range_idxs (variant_idx_start variant_idx_end : Z) : list nat :=
  seq (Z.to_nat variant_idx_start) (Z.to_nat (variant_idx_end - variant_idx_start)).

(** Modelled from the spec: the ranges the decoder accepts; the empty range
    at a valid start is one of them. *)
Definition range_ok {D} (r : PgenReader D) (variant_idx_start variant_idx_end : Z) : bool :=
  (0 <=? variant_idx_start)%Z && (variant_idx_start <=? variant_idx_end)%Z
  && (variant_idx_end <=? Z.of_nat (raw_variant_ct (rd_store r)))%Z.

(** Modelled from the spec: [r.read_dosages_range(start, end, buf)], the end
    exclusive. *)
Definition r_read_dosages_range {D} (r : PgenReader D)
    (variant_idx_start variant_idx_end : Z) (buf : ndarray D) : io (ndarray D) :=
  emit (EvReadDosagesRange variant_idx_start variant_idx_end);;
  if range_ok r variant_idx_start variant_idx_end
     && (length (range_idxs variant_idx_start variant_idx_end) <=? nd_rows buf)
     && (length (rd_samples r) <=? nd_cols buf)
  then mret (fill_rows (dosage_row r <$> range_idxs variant_idx_start variant_idx_end) buf)
  else mthrow DecoderError.

(** Modelled from the spec: [r.read_alleles_range(start, end, buf)], the end
    exclusive. *)
Definition r_read_alleles_range {D} (r : PgenReader D)
    (variant_idx_start variant_idx_end : Z) (buf : ndarray Z) : io (ndarray Z) :=
  emit (EvReadAllelesRange variant_idx_start variant_idx_end);;
  if range_ok r variant_idx_start variant_idx_end
     && (length (range_idxs variant_idx_start variant_idx_end) <=? nd_rows buf)
     && (2 * length (rd_samples r) <=? nd_cols buf)
  then mret (fill_rows (allele_row r <$> range_idxs variant_idx_start variant_idx_end) buf)
  else mthrow DecoderError.

(** ** The module-level retrieval functions

    [pgen_path] stands for the file it names. *)

Definition read_dosages `{Dtype D} (pgen_path : pgen_store D) (variant_idx : nat)
    (sample_subset : option (list nat)) : io (list D) :=
  sample_subset ← lift (subset_as_uint32 sample_subset);
  with_reader pgen_path sample_subset (fun r =>
    num_samples ← match sample_subset with
                  | None => get_raw_sample_ct r
                  | Some s => mret (length s)
                  end;
    let dosages := np_zeros1 num_samples in
    r_read_dosages r variant_idx dosages).

Definition read_alleles {D} (pgen_path : pgen_store D) (variant_idx : nat)
    (sample_subset : option (list nat)) : io (list Z) :=
  sample_subset ← lift (subset_as_uint32 sample_subset);
  with_reader pgen_path sample_subset (fun r =>
    num_samples ← match sample_subset with
                  | None => get_raw_sample_ct r
                  | Some s => mret (length s)
                  end;
    let alleles := np_zeros1 (2 * num_samples) in
    r_read_alleles r variant_idx alleles).

Definition read_dosages_list `{Dtype D} (pgen_path : pgen_store D)
    (variant_idxs : list nat) (sample_subset : option (list nat)) : io (ndarray D) :=
  sample_subset ← lift (subset_as_uint32 sample_subset);
  with_reader pgen_path sample_subset (fun r =>
    num_samples ← match sample_subset with
                  | None => get_raw_sample_ct r
                  | Some s => mret (length s)
                  end;
    let num_variants := length variant_idxs in
    dosages ← lift (np_zeros2 (Z.of_nat num_variants) num_samples);
    r_read_dosages_list r variant_idxs dosages).

Definition read_alleles_list {D} (pgen_path : pgen_store D)
    (variant_idxs : list nat) (sample_subset : option (list nat)) : io (ndarray Z) :=
  sample_subset ← lift (subset_as_uint32 sample_subset);
  with_reader pgen_path sample_subset (fun r =>
    num_samples ← match sample_subset with
                  | None => get_raw_sample_ct r
                  | Some s => mret (length s)
                  end;
    let num_variants := length variant_idxs in
    alleles ← lift (np_zeros2 (Z.of_nat num_variants) (2 * num_samples));
    r_read_alleles_list r variant_idxs alleles).

Definition read_dosages_range `{Dtype D} (pgen_path : pgen_store D)
    (start_idx end_idx : Z) (sample_subset : option (list nat)) : io (ndarray D) :=
  sample_subset ← lift (subset_as_uint32 sample_subset);
  with_reader pgen_path sample_subset (fun r =>
    num_samples ← match sample_subset with
                  | None => get_raw_sample_ct r
                  | Some s => mret (length s)
                  end;
    let num_variants := (end_idx - start_idx + 1)%Z in
    dosages ← lift (np_zeros2 num_variants num_samples);
    r_read_dosages_range r start_idx (end_idx + 1)%Z dosages).

Definition read_alleles_range {D} (pgen_path : pgen_store D)
    (start_idx end_idx : Z) (sample_subset : option (list nat)) : io (ndarray Z) :=
  sample_subset ← lift (subset_as_uint32 sample_subset);
  with_reader pgen_path sample_subset (fun r =>
    num_samples ← match sample_subset with
                  | None => get_raw_sample_ct r
                  | Some s => mret (length s)
                  end;
    let num_variants := (end_idx - start_idx + 1)%Z in
    alleles ← lift (np_zeros2 num_variants (2 * num_samples));
    r_read_alleles_range r start_idx (end_idx + 1)%Z alleles).

(** ** The [Pgen] class *)

(** What [read_pvar], [read_psam] and the pgen file give for a prefix: the
    [id] column of the pvar table, the index of the psam table, and the
    genotype store. *)
Record plink_files (D : Type) := PlinkFiles {
  pvar_id : list string;
  psam_index : list string;
  pgen : pgen_store D
}.
Arguments PlinkFiles {D} _ _ _.
Arguments pvar_id {D} _.
Arguments psam_index {D} _.
Arguments pgen {D} _.

Module Pgen.

Record t (D : Type) := Build {
  pvar_df_id : list string;              (* self.pvar_df['id'] *)
  pgen_file : pgen_store D;
  num_variants : nat;
  variant_ids : list string;
  variant_idx_dict : gmap string nat;
  sample_id_list : list string;
  sample_ids : list string;
  sample_idxs : option (list nat)
}.
Arguments Build {D} _ _ _ _ _ _ _ _.
Arguments pvar_df_id {D} _.
Arguments pgen_file {D} _.
Arguments num_variants {D} _.
Arguments variant_ids {D} _.
Arguments variant_idx_dict {D} _.
Arguments sample_id_list {D} _.
Arguments sample_ids {D} _.
Arguments sample_idxs {D} _.

(** The two assignments that end [set_samples]. *)
Definition with_selection {D} (self : t D) (ids : list string)
    (idxs : option (list nat)) : t D :=
  Build (pvar_df_id self) (pgen_file self) (num_variants self) (variant_ids self)
        (variant_idx_dict self) (sample_id_list self) ids idxs.

(** [set_samples(self, sample_ids=None, sort=True)].  The result is the
    object after the call; on [Err] the exception leaves the method before
    either attribute is assigned. *)
Definition set_samples {D} (self : t D) (sample_ids : option (list string))
    (sort : bool) : result (t D) :=
  match sample_ids with
  | None => Ok (with_selection self (sample_id_list self) None)
  | Some sample_ids =>
      sample_idxs ← mapM (fun i => list_index i (sample_id_list self)) sample_ids;
      if sort then
        let sidx := np_argsort sample_idxs in
        sample_idxs' ← mapM (list_get sample_idxs) sidx;
        sample_ids' ← mapM (list_get sample_ids) sidx;
        Ok (with_selection self sample_ids' (Some sample_idxs'))
      else
        Ok (with_selection self sample_ids (Some sample_idxs))
  end.

(** [__init__(self, plink_prefix_path, select_samples=None)]: the selection
    is resolved by [set_samples] with its default [sort=True].  The object
    handed to [set_samples] has no [sample_ids] and [sample_idxs] yet; the
    two fields are filled with values [set_samples] never reads. *)
Definition __init__ {D} (plink_prefix_path : plink_files D)
    (select_samples : option (list string)) : result (t D) :=
  let pvar_df_id := pvar_id plink_prefix_path in
  let pgen_file := pgen plink_prefix_path in
  let num_variants := length pvar_df_id in
  let variant_ids := pvar_df_id in
  let variant_idx_dict := dict_of_enumerate variant_ids in
  let sample_id_list := psam_index plink_prefix_path in
  set_samples
    (Build pvar_df_id pgen_file num_variants variant_ids variant_idx_dict
           sample_id_list [] None)
    select_samples true.

Definition read_dosages_list `{Dtype D} (self : t D) (variant_ids : list string)
    : io (DataFrame D) :=
  variant_idxs ← lift (mapM (dict_get (variant_idx_dict self)) variant_ids);
  dosages ← read_dosages_list (pgen_file self) variant_idxs None;
  lift (pd_DataFrame dosages variant_ids (sample_ids self)).

Definition read_alleles_list {D} (self : t D) (variant_ids : list string)
    : io (DataFrame Z * DataFrame Z) :=
  variant_idxs ← lift (mapM (dict_get (variant_idx_dict self)) variant_ids);
  alleles ← read_alleles_list (pgen_file self) variant_idxs (sample_idxs self);
  df1 ← lift (pd_DataFrame (nd_slice_cols_step2 0 alleles) variant_ids (sample_ids self));
  df2 ← lift (pd_DataFrame (nd_slice_cols_step2 1 alleles) variant_ids (sample_ids self));
  mret (df1, df2).

Definition load_dosages_df `{Dtype D} (self : t D) : io (DataFrame D) :=
  dosages ← read_dosages_range (pgen_file self) 0 (Z.of_nat (num_variants self) - 1)
                               (sample_idxs self);
  lift (pd_DataFrame dosages (pvar_df_id self) (sample_ids self)).

End Pgen.

(** [load_dosages_df(plink_prefix_path, select_samples=None)]. *)
Definition load_dosages_df `{Dtype D} (plink_prefix_path : plink_files D)
    (select_samples : option (list string)) : io (DataFrame D) :=
  p ← lift (Pgen.__init__ plink_prefix_path select_samples);
  Pgen.load_dosages_df p.

(** ** Vocabulary of the statements *)

(** The identifiers found in the sample table at the given positions. *)
Definition store_ids (sample_id_list : list string) (idxs : list nat) : list string :=
  (fun i => default EmptyString (sample_id_list !! i)) <$> idxs.

(** The position [list.index] gives, for an identifier that is present. *)
Definition position_of (sample_id_list : list string) (id : string) : nat :=
  match list_index id sample_id_list with Ok k => k | Err _ => 0 end.

(** [k] is the first position of [id] in [l]. *)
Definition first_match (l : list string) (id : string) (k : nat) : Prop :=
  l !! k = Some id /\ forall j, j < k -> l !! j <> Some id.

(** The pgen file has one variant per pvar row and one sample per psam row. *)
Definition files_consistent {D} (files : plink_files D) : Prop :=
  raw_variant_ct (pgen files) = length (pvar_id files) /\
  raw_sample_ct (pgen files) = length (psam_index files).

(** The events of a call that opens a reader on [sample_subset], makes the
    decoder call [ev] and closes the reader; the sample count is asked for
    only when there is no subset. *)
Definition session_trace (sample_subset : option (list nat)) (ev : list event)
    : list event :=
  EvOpen sample_subset
    :: (match sample_subset with None => [EvRawSampleCt] | Some _ => [] end)
    ++ ev ++ [EvClose].

(** The reader a successful [pg.PgenReader(path, sample_subset=...)] gives,
    and the number of samples it decodes. *)
Definition reader_of {D} (st : pgen_store D) (sample_subset : option (list nat))
    : PgenReader D :=
  MkReader st (default (seq 0 (raw_sample_ct st)) sample_subset).

Definition sample_ct {D} (st : pgen_store D) (sample_subset : option (list nat)) : nat :=
  length (rd_samples (reader_of st sample_subset)).

(** What ties a session to its files: the index is the index of the variant
    ids, the pgen file has one variant per id, and there is one sample label
    per decoded sample. *)
Definition session_consistent {D} (p : Pgen.t D) : Prop :=
  Pgen.variant_idx_dict p = dict_of_enumerate (Pgen.variant_ids p) /\
  length (Pgen.variant_ids p) = raw_variant_ct (Pgen.pgen_file p) /\
  length (Pgen.sample_ids p) = sample_ct (Pgen.pgen_file p) (Pgen.sample_idxs p).

(** The positions [set_samples] stores with [sort=True] for known ids: their
    first-match positions, ascending. *)
Definition sorted_positions (sample_id_list : list string) (ids : list string)
    : list nat :=
  merge_sort le (position_of sample_id_list <$> ids).

(** How a retrieval call ends when it is given a subset the decoder refuses:
    at the conversion when a position does not fit [uint32], else at the
    decoder's open call, made with the subset as it was given. *)
Definition refused_subset_outcome {A} (sample_subset : list nat) (tr : list event)
    : result A * list event :=
  if forallb fits_uint32 sample_subset
  then (Err DecoderError, tr ++ [EvOpen (Some sample_subset)])
  else (Err OverflowError, tr).

(** ** A small fileset for the examples

    Three variants over three samples; dosages are written as rationals. *)

#[global] Instance float_dtype : Dtype Q := 0%Q.

Definition ex_store : pgen_store Q :=
  PgenStore 3 3
    (fun v s => inject_Z (Z.of_nat ((v + s) mod 3)))
    (fun v s => nth s [(0, 1); (-9, -9); (1, 1)]%Z (0, 0)%Z).

Definition ex_files : plink_files Q :=
  PlinkFiles ["v0"; "v1"; "v2"] ["a"; "b"; "c"] ex_store.

(** The session [Pgen(prefix)] builds on [ex_files]. *)
Definition ex_session : Pgen.t Q :=
  Pgen.Build ["v0"; "v1"; "v2"] ex_store 3 ["v0"; "v1"; "v2"]
             (dict_of_enumerate ["v0"; "v1"; "v2"]) ["a"; "b"; "c"]
             ["a"; "b"; "c"] None.

(** The session after selecting the single sample [b]. *)
Definition ex_session_b : Pgen.t Q :=
  Pgen.with_selection ex_session ["b"] (Some [1]).

(** A variant table in which the id [rs1] occurs at rows 0 and 2. *)
Definition ex_files_dup : plink_files Q :=
  PlinkFiles ["rs1"; "rs2"; "rs1"] ["a"; "b"; "c"] ex_store.

(** Unfolds the combinators of [io]. *)
Ltac io_unfold :=
  unfold with_reader, pg_open, get_raw_sample_ct, emit, lift,
    mbind, io_bind, mret, io_ret, mthrow, io_throw.

(** * Properties *)

(** ** Comprehensions over [result] *)

Section mapM_result.
Context {A B : Type} (f : A -> result B).

Lemma mapM_result_cons x l :
  mapM f (x :: l) = (y ← f x; k ← mapM f l; mret (y :: k)).
Proof. reflexivity. Qed.

Lemma mapM_result_Ok l k :
  mapM f l = Ok k <-> Forall2 (fun x y => f x = Ok y) l k.
Proof.
  revert k. induction l as [|x l IH]; intros k.
  - split.
    + intros Hk. injection Hk as <-. constructor.
    + intros Hk. inversion Hk. reflexivity.
  - rewrite mapM_result_cons. split.
    + destruct (f x) as [y|e] eqn:Hx; [|discriminate]. simpl.
      destruct (mapM f l) as [k'|e] eqn:Hl; [|discriminate]. simpl.
      intros Hk. injection Hk as <-. constructor; [done|]. by apply IH.
    + intros Hk. inversion Hk as [|? y ? k' Hx Hl]; subst.
      apply IH in Hl. rewrite Hx. simpl. rewrite Hl. reflexivity.
Qed.

Lemma mapM_result_fmap (g : A -> B) l :
  Forall (fun x => f x = Ok (g x)) l -> mapM f l = Ok (g <$> l).
Proof.
  intros Hl. apply mapM_result_Ok. induction Hl; constructor; auto.
Qed.

Lemma mapM_result_length l k : mapM f l = Ok k -> length k = length l.
Proof. intros Hk%mapM_result_Ok. symmetry. by eapply Forall2_length. Qed.

(** When [f] can only fail with [e], a comprehension with a failing element
    fails with [e]. *)
Lemma mapM_result_Err e l :
  (forall x e', f x = Err e' -> e' = e) ->
  Exists (fun x => f x = Err e) l -> mapM f l = Err e.
Proof.
  intros Honly. induction l as [|x l IH]; intros Hex.
  - inversion Hex.
  - rewrite mapM_result_cons.
    destruct (f x) as [y|e'] eqn:Hx; simpl.
    + inversion Hex as [? ? Hbad|? ? Hbad]; subst; [congruence|].
      rewrite (IH Hbad). reflexivity.
    + by rewrite (Honly _ _ Hx).
Qed.
End mapM_result.

(** ** [list.index] *)

Lemma list_index_Ok x l k :
  list_index x l = Ok k <->
  l !! k = Some x /\ forall j, j < k -> l !! j <> Some x.
Proof.
  revert k. induction l as [|y l IH]; intros k; simpl.
  - split; [discriminate|]. intros [Hk _]. discriminate.
  - destruct (decide (y = x)) as [->|Hne].
    + split.
      * intros Hk. injection Hk as <-. split; [done|]. intros j Hj. lia.
      * intros [Hk Hfirst]. destruct k as [|k]; [done|].
        exfalso. apply (Hfirst 0); [lia|done].
    + split.
      * intros Hk. destruct (list_index x l) as [k'|e]; simpl in Hk; [|discriminate].
        injection Hk as <-.
        destruct (proj1 (IH k') eq_refl) as [Hk' Hfirst]. split; [done|].
        intros [|j] Hj; simpl; [congruence|]. apply Hfirst. lia.
      * intros [Hk Hfirst]. destruct k as [|k]; simpl in Hk; [congruence|].
        assert (list_index x l = Ok k) as ->; [|reflexivity].
        apply IH. split; [done|]. intros j Hj.
        apply (Hfirst (S j)). lia.
Qed.

Lemma list_index_only_ValueError x l e : list_index x l = Err e -> e = ValueError.
Proof.
  induction l as [|y l IH]; simpl; [congruence|].
  destruct (decide (y = x)); [discriminate|].
  destruct (list_index x l); simpl; [discriminate|]. intros [= <-]. by apply IH.
Qed.

Lemma list_index_absent x l : x ∉ l <-> list_index x l = Err ValueError.
Proof.
  induction l as [|y l IH]; simpl.
  - split; [done|]. intros _. apply not_elem_of_nil.
  - rewrite not_elem_of_cons. destruct (decide (y = x)) as [->|Hne].
    + split; [intros [? _]; done|discriminate].
    + destruct (list_index x l) as [k|e] eqn:Hl; simpl.
      * split; [|discriminate]. intros [_ Hx]. apply IH in Hx. discriminate.
      * apply list_index_only_ValueError in Hl as ->.
        split; [done|]. intros _. split; [congruence|]. by apply IH.
Qed.

Lemma list_index_present x l : x ∈ l -> exists k, list_index x l = Ok k.
Proof.
  intros Hx. destruct (list_index x l) as [k|e] eqn:Hl; [eauto|].
  pose proof (list_index_only_ValueError _ _ _ Hl) as ->.
  apply list_index_absent in Hl. done.
Qed.

(** ** The variant index *)

Lemma enumerate_snoc {A} (l : list A) x :
  enumerate (l ++ [x]) = enumerate l ++ [(length l, x)].
Proof.
  unfold enumerate. rewrite length_app. simpl.
  rewrite seq_app. simpl. rewrite zip_with_app; [done|].
  by rewrite length_seq.
Qed.

Lemma dict_of_enumerate_snoc ids x :
  dict_of_enumerate (ids ++ [x]) = <[x := length ids]> (dict_of_enumerate ids).
Proof.
  unfold dict_of_enumerate. rewrite enumerate_snoc, foldl_app. reflexivity.
Qed.

(** The index maps an id to its last row. *)
Lemma dict_of_enumerate_lookup ids id k :
  dict_of_enumerate ids !! id = Some k <->
  ids !! k = Some id /\ forall j, ids !! j = Some id -> j <= k.
Proof.
  revert k. induction ids as [|x ids IH] using rev_ind; intros k.
  - unfold dict_of_enumerate. simpl. rewrite lookup_empty.
    split; [discriminate|]. intros [Hk _]. discriminate.
  - rewrite dict_of_enumerate_snoc.
    assert ((ids ++ [x]) !! length ids = Some x) as Hlast.
    { rewrite lookup_app_r by lia. by rewrite Nat.sub_diag. }
    destruct (decide (x = id)) as [->|Hne].
    + rewrite lookup_insert_eq. split.
      * intros [= <-]. split; [done|].
        intros j Hj%lookup_lt_Some. rewrite length_app in Hj. simpl in Hj. lia.
      * intros [Hk Hmax]. f_equal.
        apply lookup_lt_Some in Hk. rewrite length_app in Hk. simpl in Hk.
        specialize (Hmax _ Hlast). lia.
    + rewrite lookup_insert_ne by done. rewrite IH. split.
      * intros [Hk Hmax]. split.
        -- rewrite lookup_app_l; [done|]. by eapply lookup_lt_Some.
        -- intros j Hj. apply Hmax.
           destruct (decide (j < length ids)) as [Hlt|Hge].
           ++ by rewrite lookup_app_l in Hj.
           ++ pose proof (lookup_lt_Some _ _ _ Hj) as Hj'.
              rewrite length_app in Hj'. simpl in Hj'.
              replace j with (length ids) in Hj by lia. congruence.
      * intros [Hk Hmax].
        assert (k < length ids) as Hlt.
        { pose proof (lookup_lt_Some _ _ _ Hk) as Hk'.
          rewrite length_app in Hk'. simpl in Hk'.
          destruct (decide (k = length ids)) as [->|]; [congruence|lia]. }
        rewrite lookup_app_l in Hk by done. split; [done|].
        intros j Hj. apply Hmax. rewrite lookup_app_l; [done|].
        by eapply lookup_lt_Some.
Qed.

Lemma dict_of_enumerate_None ids id :
  dict_of_enumerate ids !! id = None <-> id ∉ ids.
Proof.
  split.
  - intros Hnone [k Hk]%list_elem_of_lookup.
    induction ids as [|x ids IH] using rev_ind; [done|].
    rewrite dict_of_enumerate_snoc in Hnone.
    destruct (decide (x = id)) as [->|Hne].
    + by rewrite lookup_insert_eq in Hnone.
    + rewrite lookup_insert_ne in Hnone by done.
      pose proof (lookup_lt_Some _ _ _ Hk) as Hk'.
      rewrite length_app in Hk'. simpl in Hk'.
      destruct (decide (k = length ids)) as [->|].
      * rewrite lookup_app_r in Hk by lia. rewrite Nat.sub_diag in Hk.
        simpl in Hk. congruence.
      * rewrite lookup_app_l in Hk by lia. by apply IH.
  - intros Hid. destruct (dict_of_enumerate ids !! id) as [k|] eqn:Hk; [|done].
    apply dict_of_enumerate_lookup in Hk as [Hk _].
    exfalso. apply Hid. apply list_elem_of_lookup. eauto.
Qed.

(** ** [np.argsort] and the sorted selection *)

#[global] Instance key_le_total keys : Total (key_le keys).
Proof. intros i j. unfold key_le. lia. Qed.

Lemma np_argsort_Permutation keys : np_argsort keys ≡ₚ seq 0 (length keys).
Proof. apply merge_sort_Permutation. Qed.

Lemma np_argsort_in_range keys : Forall (fun i => i < length keys) (np_argsort keys).
Proof.
  rewrite np_argsort_Permutation. apply Forall_seq. intros; lia.
Qed.

Lemma fmap_lookup_seq {A} (d : A) (l : list A) :
  (fun i => default d (l !! i)) <$> seq 0 (length l) = l.
Proof.
  apply list_eq. intros i. rewrite list_lookup_fmap.
  destruct (l !! i) as [x|] eqn:Hi.
  - rewrite lookup_seq_lt by (by eapply lookup_lt_Some). simpl. by rewrite Hi.
  - apply lookup_ge_None in Hi.
    rewrite (proj2 (lookup_ge_None _ _)); [done|]. by rewrite length_seq.
Qed.

(** Taking the keys in the order of [np.argsort] sorts them. *)
Lemma keys_in_argsort_order keys :
  (fun i => default 0 (keys !! i)) <$> np_argsort keys = merge_sort le keys.
Proof.
  apply (Sorted_unique le).
  - apply Sorted_fmap with (R1 := key_le keys); [done|].
    apply Sorted_merge_sort; apply _.
  - apply Sorted_merge_sort; apply _.
  - rewrite np_argsort_Permutation, fmap_lookup_seq.
    symmetry. apply merge_sort_Permutation.
Qed.

Lemma mapM_list_get {A} (d : A) (l : list A) (js : list nat) :
  Forall (fun i => i < length l) js ->
  mapM (list_get l) js = Ok ((fun i => default d (l !! i)) <$> js).
Proof.
  intros Hjs. apply mapM_result_fmap. eapply Forall_impl; [exact Hjs|].
  intros i Hi. unfold list_get. simpl in Hi.
  destruct (lookup_lt_is_Some_2 l i Hi) as [x Hx]. by rewrite Hx.
Qed.

(** A comprehension of [list.index] that succeeds yields [position_of]. *)
Lemma mapM_list_index_Ok sil ids idxs :
  mapM (fun i => list_index i sil) ids = Ok idxs <->
  Forall (fun id => id ∈ sil) ids /\ idxs = position_of sil <$> ids.
Proof.
  rewrite mapM_result_Ok. split.
  - intros H. induction H as [|id k ids idxs Hk _ [IH1 IH2]]; [done|].
    split.
    + constructor; [|done].
      apply list_index_Ok in Hk as [Hk _]. apply list_elem_of_lookup. eauto.
    + simpl. unfold position_of at 1. rewrite Hk. by f_equal.
  - intros [Hall ->]. induction Hall as [|id ids Hid _ IH]; constructor; [|done].
    unfold position_of. by destruct (list_index_present _ _ Hid) as [k ->].
Qed.

Lemma position_of_lookup sil id : id ∈ sil -> sil !! position_of sil id = Some id.
Proof.
  intros [k Hk]%list_index_present. unfold position_of. rewrite Hk.
  by apply list_index_Ok in Hk as [? _].
Qed.

Lemma position_of_first_match sil id :
  id ∈ sil -> first_match sil id (position_of sil id).
Proof.
  intros [k Hk]%list_index_present. unfold position_of. rewrite Hk.
  by apply list_index_Ok.
Qed.

(** With [sort=True] the stored positions are the sorted positions of the
    requested ids, and the stored ids are the ids at those positions: the
    outcome does not depend on how [np.argsort] orders equal keys. *)
Lemma set_samples_sort_true {D} (self : Pgen.t D) (ids : list string) :
  Forall (fun id => id ∈ Pgen.sample_id_list self) ids ->
  let sorted := merge_sort le (position_of (Pgen.sample_id_list self) <$> ids) in
  Pgen.set_samples self (Some ids) true =
  Ok (Pgen.with_selection self (store_ids (Pgen.sample_id_list self) sorted)
                          (Some sorted)).
Proof.
  intros Hall sorted. unfold Pgen.set_samples.
  set (sil := Pgen.sample_id_list self) in *.
  set (idxs := position_of sil <$> ids) in *.
  assert (mapM (fun i => list_index i sil) ids = Ok idxs) as ->
    by (by apply mapM_list_index_Ok).
  simpl.
  rewrite (mapM_list_get 0) by apply np_argsort_in_range. simpl.
  rewrite (mapM_list_get EmptyString).
  2:{ replace (length ids) with (length idxs)
        by (unfold idxs; by rewrite length_fmap).
      apply np_argsort_in_range. }
  simpl. rewrite keys_in_argsort_order. fold sorted.
  f_equal. f_equal.
  unfold sorted. rewrite <- keys_in_argsort_order.
  unfold store_ids. rewrite <- list_fmap_compose.
  apply Forall_fmap_ext. eapply Forall_impl; [apply np_argsort_in_range|].
  intros i Hi. simpl in *. unfold idxs in *. rewrite length_fmap in Hi.
  rewrite list_lookup_fmap.
  destruct (lookup_lt_is_Some_2 ids i Hi) as [id Hid]. rewrite Hid. simpl.
  rewrite position_of_lookup; [done|].
  rewrite Forall_forall in Hall. apply Hall.
  apply list_elem_of_lookup. eauto.
Qed.

Lemma set_samples_sort_false {D} (self : Pgen.t D) (ids : list string) :
  Forall (fun id => id ∈ Pgen.sample_id_list self) ids ->
  Pgen.set_samples self (Some ids) false =
  Ok (Pgen.with_selection self ids
        (Some (position_of (Pgen.sample_id_list self) <$> ids))).
Proof.
  intros Hall. unfold Pgen.set_samples.
  assert (mapM (fun i => list_index i (Pgen.sample_id_list self)) ids
          = Ok (position_of (Pgen.sample_id_list self) <$> ids)) as ->
    by (by apply mapM_list_index_Ok).
  reflexivity.
Qed.

Lemma set_samples_unknown {D} (self : Pgen.t D) (ids : list string) (sort : bool) :
  Exists (fun id => id ∉ Pgen.sample_id_list self) ids ->
  Pgen.set_samples self (Some ids) sort = Err ValueError.
Proof.
  intros Hex. unfold Pgen.set_samples.
  rewrite (mapM_result_Err _ ValueError); [done| |].
  - intros x e. apply list_index_only_ValueError.
  - eapply Exists_impl; [exact Hex|]. intros id. apply list_index_absent.
Qed.

(** ** What a call of [set_samples] or [__init__] leaves unchanged *)

Lemma set_samples_Ok {D} (self p : Pgen.t D) sel sort :
  Pgen.set_samples self sel sort = Ok p ->
  p = Pgen.with_selection self (Pgen.sample_ids p) (Pgen.sample_idxs p).
Proof.
  unfold Pgen.set_samples. destruct sel as [ids|]; [|by intros [= <-]].
  destruct (mapM _ ids) as [idxs|]; simpl; [|discriminate].
  destruct sort; [|by intros [= <-]].
  destruct (mapM (list_get idxs) _); simpl; [|discriminate].
  destruct (mapM (list_get ids) _); simpl; [|discriminate].
  by intros [= <-].
Qed.

Lemma init_Ok {D} (files : plink_files D) sel (p : Pgen.t D) :
  Pgen.__init__ files sel = Ok p ->
  Pgen.pvar_df_id p = pvar_id files /\ Pgen.pgen_file p = pgen files /\
  Pgen.num_variants p = length (pvar_id files) /\
  Pgen.variant_ids p = pvar_id files /\
  Pgen.variant_idx_dict p = dict_of_enumerate (pvar_id files) /\
  Pgen.sample_id_list p = psam_index files.
Proof.
  unfold Pgen.__init__. intros Hp%set_samples_Ok. rewrite Hp. simpl. done.
Qed.

Lemma positions_first_match sil (ids : list string) :
  Forall (fun id => id ∈ sil) ids ->
  Forall2 (first_match sil) ids (position_of sil <$> ids).
Proof.
  intros Hall. apply Forall2_fmap_r. apply Forall_Forall2_diag.
  eapply Forall_impl; [exact Hall|]. intros id. apply position_of_first_match.
Qed.

Lemma sorted_positions_first_match sil (ids : list string) (sorted : list nat) :
  Forall (fun id => id ∈ sil) ids ->
  sorted ≡ₚ position_of sil <$> ids ->
  Forall2 (first_match sil) (store_ids sil sorted) sorted.
Proof.
  intros Hall Hperm. unfold store_ids.
  apply Forall2_fmap_l. apply Forall_Forall2_diag.
  rewrite Hperm. rewrite Forall_fmap.
  eapply Forall_impl; [exact Hall|]. intros id Hid. simpl.
  rewrite position_of_lookup by done. simpl. by apply position_of_first_match.
Qed.

(** The ids found at the first-match positions of known ids are those ids. *)
Lemma store_ids_positions sil (ids : list string) :
  Forall (fun id => id ∈ sil) ids ->
  store_ids sil (position_of sil <$> ids) = ids.
Proof.
  intros Hall. unfold store_ids. rewrite <- list_fmap_compose.
  rewrite <- (list_fmap_id ids) at 2.
  apply Forall_fmap_ext. eapply Forall_impl; [exact Hall|].
  intros id Hid. simpl. by rewrite position_of_lookup.
Qed.

(** ** The claims about the identifier index and the sample selection *)

(** C9: the variant index built by [Pgen.__init__] maps an id to a 0-based row
    of the variant table holding that id, and to the last such row when the
    id occurs at several rows; ids that are not in the table are not mapped.
    When all ids are unique the index is the inverse of the row-to-id
    function. *)
Theorem C9_variant_index_last_wins {D} (files : plink_files D)
    (select_samples : option (list string)) (p : Pgen.t D) (id : string) (k : nat) :
  Pgen.__init__ files select_samples = Ok p ->
  (Pgen.variant_idx_dict p !! id = Some k <->
     pvar_id files !! k = Some id /\
     forall j, pvar_id files !! j = Some id -> j <= k)
  /\ (NoDup (pvar_id files) ->
      (Pgen.variant_idx_dict p !! id = Some k <-> pvar_id files !! k = Some id)).
Proof.
  intros (_ & _ & _ & _ & -> & _)%init_Ok. split.
  - apply dict_of_enumerate_lookup.
  - intros Hnd. rewrite dict_of_enumerate_lookup. split; [by intros [? _]|].
    intros Hk. split; [done|]. intros j Hj.
    by rewrite (NoDup_lookup _ _ _ _ Hnd Hj Hk).
Qed.

Lemma C9_witness :
  (exists p, Pgen.__init__ ex_files_dup None = Ok p /\
             Pgen.variant_idx_dict p !! "rs1" = Some 2 /\
             Pgen.variant_idx_dict p !! "rs2" = Some 1) /\
  Pgen.__init__ ex_files None = Ok ex_session /\
  NoDup (pvar_id ex_files) /\
  Pgen.variant_idx_dict ex_session !! "v1" = Some 1.
Proof.
  assert (forall (id : string) j, pvar_id ex_files_dup !! j = Some id -> j <= 2) as Hlast.
  { intros id j Hj%lookup_lt_Some. simpl in Hj. lia. }
  split.
  - eexists. split; [reflexivity|]. split.
    + apply (proj1 (C9_variant_index_last_wins ex_files_dup None _ "rs1" 2 eq_refl)).
      split; [reflexivity|]. apply Hlast.
    + apply (proj1 (C9_variant_index_last_wins ex_files_dup None _ "rs2" 1 eq_refl)).
      split; [reflexivity|]. intros [|[|[|j]]]; simpl; intros; (lia || discriminate).
  - assert (NoDup (pvar_id ex_files)) as Hnd
      by (apply (bool_decide_unpack _); vm_compute; reflexivity).
    split; [reflexivity|]. split; [exact Hnd|].
    apply (proj2 (C9_variant_index_last_wins ex_files None ex_session "v1" 1 eq_refl) Hnd).
    reflexivity.
Defined.

(** C6 (amended): resolving a sample-id list that contains an identifier absent
    from the sample table fails with the [ValueError] of [list.index], for
    either value of [sort], and nothing is stored.  When every identifier is
    present, each requested identifier is resolved to the position of its
    first exact match in the sample identifier sequence: with [sort=False]
    these positions are stored in the order of the request, beside the
    requested ids; with [sort=True] the same positions are stored in
    ascending order, beside the requested ids rearranged so that each is
    still paired with its first-match position. *)
Theorem C6_set_samples_unknown_id_ValueError {D} (self : Pgen.t D)
    (sample_ids : list string) (sort : bool) :
  (Exists (fun id => id ∉ Pgen.sample_id_list self) sample_ids ->
   Pgen.set_samples self (Some sample_ids) sort = Err ValueError)
  /\ (Forall (fun id => id ∈ Pgen.sample_id_list self) sample_ids ->
      exists idxs,
        Forall2 (first_match (Pgen.sample_id_list self)) sample_ids idxs /\
        Pgen.set_samples self (Some sample_ids) false
          = Ok (Pgen.with_selection self sample_ids (Some idxs)) /\
        exists ids' idxs',
          Pgen.set_samples self (Some sample_ids) true
            = Ok (Pgen.with_selection self ids' (Some idxs')) /\
          Sorted le idxs' /\ idxs' ≡ₚ idxs /\ ids' ≡ₚ sample_ids /\
          Forall2 (first_match (Pgen.sample_id_list self)) ids' idxs').
Proof.
  split; [apply set_samples_unknown|].
  intros Hall. eexists.
  split; [by apply positions_first_match|].
  split; [by apply set_samples_sort_false|].
  eexists _, _. split; [by apply set_samples_sort_true|].
  split; [apply Sorted_merge_sort; apply _|].
  split; [apply merge_sort_Permutation|]. split.
  - rewrite <- (store_ids_positions _ sample_ids Hall) at 2.
    unfold store_ids. apply fmap_Permutation, merge_sort_Permutation.
  - eapply sorted_positions_first_match; [exact Hall|].
    apply merge_sort_Permutation.
Qed.

Lemma C6_witness :
  Pgen.set_samples ex_session (Some ["c"; "nobody"]) false = Err ValueError /\
  exists idxs,
    Forall2 (first_match ["a"; "b"; "c"]) ["c"; "a"] idxs /\
    Pgen.set_samples ex_session (Some ["c"; "a"]) false
      = Ok (Pgen.with_selection ex_session ["c"; "a"] (Some idxs)) /\
    exists ids' idxs',
      Pgen.set_samples ex_session (Some ["c"; "a"]) true
        = Ok (Pgen.with_selection ex_session ids' (Some idxs')) /\
      Sorted le idxs' /\ idxs' ≡ₚ idxs /\ ids' ≡ₚ ["c"; "a"] /\
      Forall2 (first_match ["a"; "b"; "c"]) ids' idxs'.
Proof.
  split.
  - apply (proj1 (C6_set_samples_unknown_id_ValueError ex_session ["c"; "nobody"] false)).
    apply (bool_decide_unpack _). vm_compute. reflexivity.
  - apply (proj2 (C6_set_samples_unknown_id_ValueError ex_session ["c"; "a"] false)).
    apply (bool_decide_unpack _). vm_compute. reflexivity.
Defined.

(** C6, as stated, fails: an unknown sample id makes [set_samples] raise
    [ValueError], which is not [KeyError]. *)
Lemma C6_counterexample :
  Pgen.set_samples ex_session (Some ["nobody"]) true = Err ValueError /\
  Pgen.set_samples ex_session (Some ["nobody"]) true <> Err KeyError.
Proof. split; [reflexivity|]. vm_compute. discriminate. Qed.

(** C2 (amended): with [sort=False] the stored positions are the first-match
    positions of the requested ids in the caller's order, not sorted, beside
    the caller's id list; they coincide with the positions stored with
    [sort=True] exactly when they are already ascending. *)
Theorem C2_set_samples_unsorted_request_order {D} (self : Pgen.t D)
    (sample_ids : list string) :
  Forall (fun id => id ∈ Pgen.sample_id_list self) sample_ids ->
  exists idxs p',
    Pgen.set_samples self (Some sample_ids) false
      = Ok (Pgen.with_selection self sample_ids (Some idxs)) /\
    Forall2 (first_match (Pgen.sample_id_list self)) sample_ids idxs /\
    Pgen.set_samples self (Some sample_ids) true = Ok p' /\
    (Pgen.sample_idxs p' = Some idxs <-> Sorted le idxs).
Proof.
  intros Hall. eexists _, _.
  split; [by apply set_samples_sort_false|].
  split; [by apply positions_first_match|].
  split; [by apply set_samples_sort_true|].
  simpl. set (idxs := position_of _ <$> _). split.
  - intros [= Heq]. rewrite <- Heq. apply Sorted_merge_sort; apply _.
  - intros Hs. f_equal. apply (Sorted_unique le); [|done|].
    + apply Sorted_merge_sort; apply _.
    + apply merge_sort_Permutation.
Qed.

Lemma C2_witness :
  exists idxs p',
    Pgen.set_samples ex_session (Some ["c"; "a"]) false
      = Ok (Pgen.with_selection ex_session ["c"; "a"] (Some idxs)) /\
    Forall2 (first_match ["a"; "b"; "c"]) ["c"; "a"] idxs /\
    Pgen.set_samples ex_session (Some ["c"; "a"]) true = Ok p' /\
    (Pgen.sample_idxs p' = Some idxs <-> Sorted le idxs).
Proof.
  apply (C2_set_samples_unsorted_request_order ex_session ["c"; "a"]).
  apply (bool_decide_unpack _). vm_compute. reflexivity.
Defined.

(** C2, as stated, fails: requesting [c] before [a] with [sort=False] stores
    the positions [2; 0], which are not ascending and differ from the
    positions [0; 2] stored with [sort=True]. *)
Lemma C2_counterexample :
  Pgen.set_samples ex_session (Some ["c"; "a"]) false
    = Ok (Pgen.with_selection ex_session ["c"; "a"] (Some [2; 0])) /\
  ~ Sorted le [2; 0] /\
  Pgen.set_samples ex_session (Some ["c"; "a"]) true
    = Ok (Pgen.with_selection ex_session ["a"; "c"] (Some [0; 2])).
Proof.
  split; [reflexivity|]. split; [|reflexivity].
  intros Hs. inversion Hs as [|? ? _ Hhd]. inversion Hhd. lia.
Qed.

(** C10: [Pgen.__init__] resolves [select_samples] with [sort=True]: after
    construction the stored positions are absent (no selection) or ascending,
    the presented ids are the ids found at those positions of the sample
    table, and listing the selected samples in another order constructs the
    same session. *)
Theorem C10_init_sorted_store_order {D} (files : plink_files D)
    (select_samples : option (list string)) (p : Pgen.t D) :
  Pgen.__init__ files select_samples = Ok p ->
  match Pgen.sample_idxs p with
  | None => select_samples = None /\ Pgen.sample_ids p = psam_index files
  | Some idxs =>
      Sorted le idxs /\
      Forall2 (fun i id => psam_index files !! i = Some id) idxs (Pgen.sample_ids p)
  end
  /\ forall request request',
       select_samples = Some request -> request' ≡ₚ request ->
       Pgen.__init__ files (Some request') = Ok p.
Proof.
  unfold Pgen.__init__.
  set (self := Pgen.Build _ _ _ _ _ _ _ _).
  destruct select_samples as [ids|].
  - intros Hp.
    assert (Forall (fun id => id ∈ Pgen.sample_id_list self) ids) as Hall.
    { apply Forall_forall. intros id Hid.
      destruct (decide (id ∈ Pgen.sample_id_list self)) as [|Hout]; [done|].
      assert (Exists (fun id => id ∉ Pgen.sample_id_list self) ids) as Hex
        by (apply Exists_exists; eauto).
      apply (set_samples_unknown self ids true) in Hex. congruence. }
    rewrite set_samples_sort_true in Hp by done. injection Hp as <-.
    split; [split|].
    + apply Sorted_merge_sort; apply _.
    + simpl. apply Forall2_flip.
      eapply Forall2_impl;
        [eapply sorted_positions_first_match;
           [exact Hall|apply merge_sort_Permutation]|].
      by intros id i [? _].
    + intros request request' [= <-] Hperm.
      rewrite set_samples_sort_true by (by rewrite Hperm). simpl.
      assert (merge_sort le (position_of (psam_index files) <$> request')
              = merge_sort le (position_of (psam_index files) <$> ids)) as ->;
        [|reflexivity].
      apply (Sorted_unique le); try (apply Sorted_merge_sort; apply _).
      by rewrite !merge_sort_Permutation, Hperm.
  - intros [= <-]. simpl. split; [done|]. intros ? ? [=].
Qed.

Lemma C10_witness :
  Pgen.__init__ ex_files (Some ["c"; "a"])
    = Ok (Pgen.with_selection ex_session ["a"; "c"] (Some [0; 2])) /\
  Sorted le [0; 2] /\
  Pgen.__init__ ex_files (Some ["a"; "c"])
    = Ok (Pgen.with_selection ex_session ["a"; "c"] (Some [0; 2])).
Proof.
  pose proof (C10_init_sorted_store_order ex_files (Some ["c"; "a"])
                (Pgen.with_selection ex_session ["a"; "c"] (Some [0; 2])) eq_refl)
    as [[Hsorted _] Hany].
  split; [reflexivity|]. split; [exact Hsorted|].
  apply (Hany ["c"; "a"]); [reflexivity|]. apply Permutation_swap.
Defined.

(** ** Running the retrieval functions *)

(** Every retrieval function starts the same way: it converts the subset it
    was given, opens a reader on it and, without a subset, asks for the
    sample count. *)
Lemma subset_ok_as_uint32 {D} (st : pgen_store D) (ss : option (list nat)) :
  subset_ok st ss = true -> subset_as_uint32 ss = Ok ss.
Proof.
  destruct ss as [l|]; [|done]. simpl. unfold np_array_uint32.
  intros [[_ ->]%andb_true_iff _]%andb_true_iff. reflexivity.
Qed.

Lemma session_prefix {D A} (st : pgen_store D) (ss : option (list nat))
    (k : PgenReader D -> nat -> io A) (tr : list event) :
  subset_ok st ss = true ->
  (sample_subset ← lift (subset_as_uint32 ss);
   with_reader st sample_subset (fun r =>
     num_samples ← match sample_subset with
                   | None => get_raw_sample_ct r
                   | Some s => mret (length s)
                   end;
     k r num_samples)) tr
  = let '(res, tr2) :=
      k (reader_of st ss) (sample_ct st ss)
        (tr ++ EvOpen ss :: match ss with None => [EvRawSampleCt] | Some _ => [] end)
    in (res, tr2 ++ [EvClose]).
Proof.
  intros Hok. unfold mbind at 1, io_bind at 1, lift at 1.
  rewrite (subset_ok_as_uint32 st ss Hok).
  destruct ss as [l|].
  - io_unfold. rewrite Hok. reflexivity.
  - io_unfold. simpl. unfold sample_ct. simpl. rewrite length_seq.
    rewrite <- app_assoc. reflexivity.
Qed.

(** A subset of [uint32] positions that the decoder refuses: the call ends at
    the attempt to open. *)
Lemma session_refused {D A} (st : pgen_store D) (l : list nat)
    (body : option (list nat) -> PgenReader D -> io A) (tr : list event) :
  forallb fits_uint32 l = true ->
  subset_ok st (Some l) = false ->
  (sample_subset ← lift (subset_as_uint32 (Some l));
   with_reader st sample_subset (body sample_subset)) tr
  = (Err DecoderError, tr ++ [EvOpen (Some l)]).
Proof.
  intros Hfits Hbad. unfold mbind at 1, io_bind at 1, lift at 1.
  unfold subset_as_uint32, np_array_uint32. rewrite Hfits.
  io_unfold. cbn [fmap result_fmap]. rewrite Hbad. reflexivity.
Qed.

(** A subset with a position that does not fit [uint32]: the conversion
    raises before the decoder is reached. *)
Lemma session_overflow {D A} (st : pgen_store D) (l : list nat)
    (body : option (list nat) -> PgenReader D -> io A) (tr : list event) :
  forallb fits_uint32 l = false ->
  (sample_subset ← lift (subset_as_uint32 (Some l));
   with_reader st sample_subset (body sample_subset)) tr
  = (Err OverflowError, tr).
Proof.
  intros Hfits. unfold mbind at 1, io_bind at 1, lift at 1.
  unfold subset_as_uint32, np_array_uint32. rewrite Hfits. reflexivity.
Qed.

Lemma overwrite_exact {A} (new old : list A) :
  length old <= length new -> overwrite new old = new.
Proof.
  intros Hlen. unfold overwrite. rewrite drop_ge by done. apply app_nil_r.
Qed.

(** Decoding into a freshly allocated buffer of the exact shape leaves the
    decoded rows. *)
Lemma fill_rows_zeros {A} (z : A) (rows : list (list A)) (n c : nat) :
  length rows = n -> Forall (fun row => length row = c) rows ->
  fill_rows rows (NdArray n c (replicate n (replicate c z))) = NdArray n c rows.
Proof.
  intros Hn Hrows. unfold fill_rows. simpl. f_equal.
  rewrite drop_ge by (rewrite length_replicate; lia). rewrite app_nil_r.
  subst n. induction Hrows as [|row rows Hrow _ IH]; [done|]. simpl.
  rewrite overwrite_exact by (rewrite length_replicate; lia). by f_equal.
Qed.

Lemma dosage_row_length {D} (r : PgenReader D) v :
  length (dosage_row r v) = length (rd_samples r).
Proof. unfold dosage_row. apply length_fmap. Qed.

Lemma allele_row_length {D} (r : PgenReader D) v :
  length (allele_row r v) = 2 * length (rd_samples r).
Proof.
  unfold allele_row. induction (rd_samples r) as [|s l IH]; [done|].
  simpl. destruct (alleles_at _ v s). simpl. rewrite IH. lia.
Qed.

Lemma range_idxs_length a b : length (range_idxs a b) = Z.to_nat (b - a).
Proof. unfold range_idxs. apply length_seq. Qed.

(** A range query whose bounds the decoder accepts: [start_idx] may be as
    large as [end_idx + 1], the empty range. *)
Lemma read_dosages_range_Ok `{Dtype D} (st : pgen_store D) (start_idx end_idx : Z)
    (ss : option (list nat)) (tr : list event) :
  subset_ok st ss = true ->
  (0 <= start_idx <= end_idx + 1)%Z ->
  (end_idx + 1 <= Z.of_nat (raw_variant_ct st))%Z ->
  read_dosages_range st start_idx end_idx ss tr
  = (Ok (NdArray (Z.to_nat (end_idx - start_idx + 1)) (sample_ct st ss)
           (dosage_row (reader_of st ss) <$> range_idxs start_idx (end_idx + 1))),
     tr ++ session_trace ss [EvReadDosagesRange start_idx (end_idx + 1)]).
Proof.
  intros Hok Hstart Hend. unfold read_dosages_range.
  rewrite session_prefix by done.
  unfold np_zeros2, r_read_dosages_range, range_ok.
  destruct (Z.ltb_spec (end_idx - start_idx + 1) 0) as [|_]; [lia|].
  io_unfold. simpl.
  rewrite range_idxs_length.
  replace (end_idx + 1 - start_idx)%Z with (end_idx - start_idx + 1)%Z by lia.
  rewrite (proj2 (Z.leb_le _ _)) by lia.
  rewrite (proj2 (Z.leb_le _ _)) by lia.
  rewrite (proj2 (Z.leb_le _ _)) by lia.
  rewrite Nat.leb_refl. unfold sample_ct. rewrite Nat.leb_refl. simpl.
  rewrite fill_rows_zeros.
  - f_equal. unfold session_trace. rewrite <- !app_assoc. reflexivity.
  - rewrite length_fmap, range_idxs_length. f_equal. lia.
  - apply Forall_fmap, Forall_forall. intros v _. apply dosage_row_length.
Qed.

Lemma read_alleles_range_Ok {D} (st : pgen_store D) (start_idx end_idx : Z)
    (ss : option (list nat)) (tr : list event) :
  subset_ok st ss = true ->
  (0 <= start_idx <= end_idx + 1)%Z ->
  (end_idx + 1 <= Z.of_nat (raw_variant_ct st))%Z ->
  read_alleles_range st start_idx end_idx ss tr
  = (Ok (NdArray (Z.to_nat (end_idx - start_idx + 1)) (2 * sample_ct st ss)
           (allele_row (reader_of st ss) <$> range_idxs start_idx (end_idx + 1))),
     tr ++ session_trace ss [EvReadAllelesRange start_idx (end_idx + 1)]).
Proof.
  intros Hok Hstart Hend. unfold read_alleles_range.
  rewrite session_prefix by done.
  unfold np_zeros2, r_read_alleles_range, range_ok.
  destruct (Z.ltb_spec (end_idx - start_idx + 1) 0) as [|_]; [lia|].
  io_unfold. cbn [nd_rows nd_cols rd_store reader_of].
  rewrite range_idxs_length.
  replace (end_idx + 1 - start_idx)%Z with (end_idx - start_idx + 1)%Z by lia.
  rewrite (proj2 (Z.leb_le _ _)) by lia.
  rewrite (proj2 (Z.leb_le _ _)) by lia.
  rewrite (proj2 (Z.leb_le _ _)) by lia.
  rewrite Nat.leb_refl. unfold sample_ct. rewrite Nat.leb_refl.
  cbn [andb fst snd].
  rewrite fill_rows_zeros.
  - f_equal. unfold session_trace. rewrite <- !app_assoc. reflexivity.
  - rewrite length_fmap, range_idxs_length. f_equal. lia.
  - apply Forall_fmap, Forall_forall. intros v _. apply allele_row_length.
Qed.

Lemma read_dosages_Ok `{Dtype D} (st : pgen_store D) (variant_idx : nat)
    (ss : option (list nat)) (tr : list event) :
  subset_ok st ss = true ->
  variant_idx < raw_variant_ct st ->
  read_dosages st variant_idx ss tr
  = (Ok (dosage_row (reader_of st ss) variant_idx),
     tr ++ session_trace ss [EvReadDosages variant_idx]).
Proof.
  intros Hok Hv. unfold read_dosages.
  rewrite session_prefix by done.
  unfold r_read_dosages, np_zeros1. io_unfold.
  cbn [rd_store reader_of fst snd].
  rewrite (proj2 (Nat.ltb_lt _ _)) by done.
  rewrite length_replicate. unfold sample_ct. rewrite Nat.leb_refl.
  cbn [andb]. rewrite overwrite_exact.
  - f_equal. unfold session_trace. rewrite <- !app_assoc. reflexivity.
  - rewrite length_replicate, dosage_row_length. done.
Qed.

Lemma variant_idxs_ok {D} (st : pgen_store D) (variant_idxs : list nat) :
  Forall (fun v => v < raw_variant_ct st) variant_idxs ->
  forallb (fun v => v <? raw_variant_ct st) variant_idxs = true.
Proof.
  intros Hall. apply forallb_forall. intros v Hv%list_elem_of_In.
  rewrite Forall_forall in Hall. apply Nat.ltb_lt. by apply Hall.
Qed.

Lemma read_dosages_list_Ok `{Dtype D} (st : pgen_store D) (variant_idxs : list nat)
    (ss : option (list nat)) (tr : list event) :
  subset_ok st ss = true ->
  Forall (fun v => v < raw_variant_ct st) variant_idxs ->
  read_dosages_list st variant_idxs ss tr
  = (Ok (NdArray (length variant_idxs) (sample_ct st ss)
           (dosage_row (reader_of st ss) <$> variant_idxs)),
     tr ++ session_trace ss [EvReadDosagesList variant_idxs]).
Proof.
  intros Hok Hvs. unfold read_dosages_list.
  rewrite session_prefix by done.
  unfold np_zeros2, r_read_dosages_list.
  destruct (Z.ltb_spec (Z.of_nat (length variant_idxs)) 0) as [|_]; [lia|].
  rewrite Nat2Z.id. io_unfold.
  cbn [nd_rows nd_cols rd_store reader_of fst snd].
  rewrite variant_idxs_ok by done.
  rewrite Nat.leb_refl. unfold sample_ct. rewrite Nat.leb_refl.
  cbn [andb]. rewrite fill_rows_zeros.
  - f_equal. unfold session_trace. rewrite <- !app_assoc. reflexivity.
  - by rewrite length_fmap.
  - apply Forall_fmap, Forall_forall. intros v _. apply dosage_row_length.
Qed.

Lemma read_alleles_list_Ok {D} (st : pgen_store D) (variant_idxs : list nat)
    (ss : option (list nat)) (tr : list event) :
  subset_ok st ss = true ->
  Forall (fun v => v < raw_variant_ct st) variant_idxs ->
  read_alleles_list st variant_idxs ss tr
  = (Ok (NdArray (length variant_idxs) (2 * sample_ct st ss)
           (allele_row (reader_of st ss) <$> variant_idxs)),
     tr ++ session_trace ss [EvReadAllelesList variant_idxs]).
Proof.
  intros Hok Hvs. unfold read_alleles_list.
  rewrite session_prefix by done.
  unfold np_zeros2, r_read_alleles_list.
  destruct (Z.ltb_spec (Z.of_nat (length variant_idxs)) 0) as [|_]; [lia|].
  rewrite Nat2Z.id. io_unfold.
  cbn [nd_rows nd_cols rd_store reader_of fst snd].
  rewrite variant_idxs_ok by done.
  rewrite Nat.leb_refl. unfold sample_ct. rewrite Nat.leb_refl.
  cbn [andb]. rewrite fill_rows_zeros.
  - f_equal. unfold session_trace. rewrite <- !app_assoc. reflexivity.
  - by rewrite length_fmap.
  - apply Forall_fmap, Forall_forall. intros v _. apply allele_row_length.
Qed.

(** A range with [start_idx > end_idx + 1]: the row count is negative and
    [np.zeros] raises inside the [with] block, before any read. *)
Lemma read_dosages_range_negative `{Dtype D} (st : pgen_store D)
    (start_idx end_idx : Z) (ss : option (list nat)) (tr : list event) :
  subset_ok st ss = true -> (end_idx + 1 < start_idx)%Z ->
  read_dosages_range st start_idx end_idx ss tr
  = (Err ValueError, tr ++ session_trace ss []).
Proof.
  intros Hok Hneg. unfold read_dosages_range.
  rewrite session_prefix by done. unfold np_zeros2.
  destruct (Z.ltb_spec (end_idx - start_idx + 1) 0) as [_|]; [|lia].
  io_unfold. cbn [fst snd]. f_equal.
  unfold session_trace. rewrite <- !app_assoc. reflexivity.
Qed.

Lemma read_alleles_range_negative {D} (st : pgen_store D)
    (start_idx end_idx : Z) (ss : option (list nat)) (tr : list event) :
  subset_ok st ss = true -> (end_idx + 1 < start_idx)%Z ->
  read_alleles_range st start_idx end_idx ss tr
  = (Err ValueError, tr ++ session_trace ss []).
Proof.
  intros Hok Hneg. unfold read_alleles_range.
  rewrite session_prefix by done. unfold np_zeros2.
  destruct (Z.ltb_spec (end_idx - start_idx + 1) 0) as [_|]; [|lia].
  io_unfold. cbn [fst snd]. f_equal.
  unfold session_trace. rewrite <- !app_assoc. reflexivity.
Qed.

(** ** Slices with step 2 *)

Lemma every_other_lookup {A} (l : list A) (k : nat) :
  every_other l !! k = l !! (2 * k).
Proof.
  revert l. induction k as [|k IH]; intros [|x [|y l]]; try done.
  simpl. rewrite IH. replace (k + S (k + 0)) with (S (2 * k)) by lia. done.
Qed.

Lemma slice_step2_lookup {A} (start : nat) (l : list A) (k : nat) :
  slice_step2 start l !! k = l !! (start + 2 * k).
Proof. unfold slice_step2. by rewrite every_other_lookup, lookup_drop. Qed.

(** ** Sessions built through the class are consistent *)

Lemma set_samples_consistent {D} (self p : Pgen.t D) sel sort :
  raw_sample_ct (Pgen.pgen_file self) = length (Pgen.sample_id_list self) ->
  Pgen.variant_idx_dict self = dict_of_enumerate (Pgen.variant_ids self) ->
  length (Pgen.variant_ids self) = raw_variant_ct (Pgen.pgen_file self) ->
  Pgen.set_samples self sel sort = Ok p ->
  session_consistent p.
Proof.
  intros Hsamples Hdict Hvariants Hp. unfold session_consistent.
  pose proof (set_samples_Ok _ _ _ _ Hp) as Heq.
  rewrite Heq. cbn [Pgen.with_selection Pgen.variant_idx_dict Pgen.variant_ids
                    Pgen.pgen_file Pgen.sample_ids Pgen.sample_idxs].
  split; [done|]. split; [done|].
  unfold Pgen.set_samples in Hp. destruct sel as [ids|].
  - destruct (mapM _ ids) as [idxs|] eqn:Hidxs; simpl in Hp; [|discriminate].
    apply mapM_result_length in Hidxs.
    destruct sort.
    + destruct (mapM (list_get idxs) _) as [idxs'|] eqn:H1; simpl in Hp; [|discriminate].
      destruct (mapM (list_get ids) _) as [ids'|] eqn:H2; simpl in Hp; [|discriminate].
      injection Hp as <-. unfold sample_ct. simpl.
      apply mapM_result_length in H1, H2. congruence.
    + injection Hp as <-. unfold sample_ct. simpl. congruence.
  - injection Hp as <-. unfold sample_ct. simpl. rewrite length_seq. done.
Qed.

Lemma init_consistent {D} (files : plink_files D) sel (p : Pgen.t D) :
  files_consistent files -> Pgen.__init__ files sel = Ok p -> session_consistent p.
Proof.
  intros [Hv Hs] Hp. unfold Pgen.__init__ in Hp.
  eapply set_samples_consistent; [| | |exact Hp]; simpl; done.
Qed.

(** ** Known and unknown variant ids *)

Lemma dict_get_only_KeyError {V} (d : gmap string V) k e :
  dict_get d k = Err e -> e = KeyError.
Proof. unfold dict_get. destruct (d !! k); congruence. Qed.

Lemma variant_idxs_known ids (variant_ids : list string) :
  Forall (fun id => id ∈ ids) variant_ids ->
  exists idxs,
    mapM (dict_get (dict_of_enumerate ids)) variant_ids = Ok idxs /\
    Forall2 (fun id k => dict_of_enumerate ids !! id = Some k) variant_ids idxs /\
    Forall (fun k => k < length ids) idxs.
Proof.
  induction 1 as [|id variant_ids Hid _ (idxs & Hm & Hl & Hb)].
  - exists []. done.
  - destruct (dict_of_enumerate ids !! id) as [k|] eqn:Hk.
    2:{ apply dict_of_enumerate_None in Hk. done. }
    assert (dict_get (dict_of_enumerate ids) id = Ok k) as Hg
      by (unfold dict_get; by rewrite Hk).
    exists (k :: idxs). rewrite mapM_result_cons, Hg. simpl.
    rewrite Hm. simpl. split; [done|].
    split; [by constructor|]. constructor; [|done].
    apply dict_of_enumerate_lookup in Hk as [Hk _]. by eapply lookup_lt_Some.
Qed.

(** ** The claims about retrieval *)

(** C3: for [start_idx <= end_idx] within the variants of the file, the range
    retrieval is end-inclusive: it calls the decoder with the exclusive end
    [end_idx + 1] and returns [end_idx - start_idx + 1] rows, row [k] being
    what the single-variant retrieval returns for variant [start_idx + k]; a
    range [(i, i)] returns the one row of variant [i]. *)
Theorem C3_read_dosages_range_end_inclusive `{Dtype D} (st : pgen_store D)
    (start_idx end_idx : nat) (ss : option (list nat)) (tr : list event) :
  subset_ok st ss = true ->
  start_idx <= end_idx ->
  end_idx < raw_variant_ct st ->
  exists m,
    read_dosages_range st (Z.of_nat start_idx) (Z.of_nat end_idx) ss tr
      = (Ok m, tr ++ session_trace ss
                 [EvReadDosagesRange (Z.of_nat start_idx) (Z.of_nat end_idx + 1)]) /\
    nd_rows m = end_idx - start_idx + 1 /\
    length (nd_data m) = end_idx - start_idx + 1 /\
    (forall k, k <= end_idx - start_idx ->
       exists row, nd_data m !! k = Some row /\
                   (read_dosages st (start_idx + k) ss tr).1 = Ok row) /\
    (start_idx = end_idx ->
       exists row, nd_data m = [row] /\
                   (read_dosages st start_idx ss tr).1 = Ok row).
Proof.
  intros Hok Hle Hend. eexists.
  split; [apply read_dosages_range_Ok; [done|lia|lia]|].
  cbn [nd_rows nd_data].
  assert (range_idxs (Z.of_nat start_idx) (Z.of_nat end_idx + 1)
          = seq start_idx (end_idx - start_idx + 1)) as ->.
  { unfold range_idxs. f_equal; lia. }
  split; [lia|]. split; [by rewrite length_fmap, length_seq|]. split.
  - intros k Hk. exists (dosage_row (reader_of st ss) (start_idx + k)). split.
    + rewrite list_lookup_fmap, lookup_seq_lt by lia. done.
    + rewrite read_dosages_Ok by (done || lia). done.
  - intros ->. exists (dosage_row (reader_of st ss) end_idx). split.
    + by rewrite Nat.sub_diag.
    + rewrite read_dosages_Ok by (done || lia). done.
Qed.

Lemma C3_witness :
  exists m,
    read_dosages_range ex_store 2 2 None []
      = (Ok m, [] ++ session_trace None [EvReadDosagesRange 2 (2 + 1)]) /\
    nd_rows m = 1 /\
    length (nd_data m) = 1 /\
    (forall k, k <= 0 ->
       exists row, nd_data m !! k = Some row /\
                   (read_dosages ex_store (2 + k) None []).1 = Ok row) /\
    (2 = 2 ->
       exists row, nd_data m = [row] /\
                   (read_dosages ex_store 2 None []).1 = Ok row).
Proof.
  apply (C3_read_dosages_range_end_inclusive ex_store 2 2 None []).
  - reflexivity.
  - lia.
  - simpl. lia.
Defined.

(** C4 (amended): for [start_idx > end_idx + 1] and a sample subset the
    decoder accepts, both range retrievals fail with the [ValueError] numpy
    raises for a negative number of rows, after the reader was opened and
    without any read, and return no buffer.  For [start_idx = end_idx + 1]
    they make no check of their own: a buffer without rows is allocated and
    handed to the decoder with the empty range, and is returned. *)
Theorem C4_reversed_range `{Dtype D} (st : pgen_store D)
    (start_idx end_idx : Z) (ss : option (list nat)) (tr : list event) :
  subset_ok st ss = true ->
  (end_idx < start_idx)%Z ->
  ((end_idx + 1 < start_idx)%Z ->
     read_dosages_range st start_idx end_idx ss tr
       = (Err ValueError, tr ++ session_trace ss []) /\
     read_alleles_range st start_idx end_idx ss tr
       = (Err ValueError, tr ++ session_trace ss []))
  /\ (start_idx = (end_idx + 1)%Z ->
      (0 <= start_idx <= Z.of_nat (raw_variant_ct st))%Z ->
     read_dosages_range st start_idx end_idx ss tr
       = (Ok (NdArray 0 (sample_ct st ss) []),
          tr ++ session_trace ss [EvReadDosagesRange start_idx start_idx]) /\
     read_alleles_range st start_idx end_idx ss tr
       = (Ok (NdArray 0 (2 * sample_ct st ss) []),
          tr ++ session_trace ss [EvReadAllelesRange start_idx start_idx])).
Proof.
  intros Hok Hlt. split.
  - intros Hneg. split.
    + by apply read_dosages_range_negative.
    + by apply read_alleles_range_negative.
  - intros -> Hbounds. split.
    + rewrite read_dosages_range_Ok by (done || lia).
      unfold range_idxs.
      replace (end_idx + 1 - (end_idx + 1))%Z with 0%Z by lia.
      replace (end_idx - (end_idx + 1) + 1)%Z with 0%Z by lia. reflexivity.
    + rewrite read_alleles_range_Ok by (done || lia).
      unfold range_idxs.
      replace (end_idx + 1 - (end_idx + 1))%Z with 0%Z by lia.
      replace (end_idx - (end_idx + 1) + 1)%Z with 0%Z by lia. reflexivity.
Qed.

Lemma C4_witness :
  (read_dosages_range ex_store 3 0 None []
     = (Err ValueError, [EvOpen None; EvRawSampleCt; EvClose]) /\
   read_alleles_range ex_store 3 0 None []
     = (Err ValueError, [EvOpen None; EvRawSampleCt; EvClose]))
  /\ (read_dosages_range ex_store 1 0 None []
        = (Ok (NdArray 0 3 []),
           [EvOpen None; EvRawSampleCt; EvReadDosagesRange 1 1; EvClose]) /\
      read_alleles_range ex_store 1 0 None []
        = (Ok (NdArray 0 6 []),
           [EvOpen None; EvRawSampleCt; EvReadAllelesRange 1 1; EvClose])).
Proof.
  split.
  - apply (proj1 (C4_reversed_range ex_store 3 0 None [] eq_refl ltac:(lia))). lia.
  - apply (proj2 (C4_reversed_range ex_store 1 0 None [] eq_refl ltac:(lia)));
      [reflexivity|simpl; lia].
Defined.

(** C4, as stated, fails: the range [(1, 0)] has [start_idx > end_idx], yet
    both range retrievals return a buffer (without rows) instead of failing;
    and where they do fail, at [(3, 0)], the exception is numpy's
    [ValueError], raised after the reader was opened. *)
Lemma C4_counterexample :
  run (read_dosages_range ex_store 1 0 None)
    = (Ok (NdArray 0 3 []),
       [EvOpen None; EvRawSampleCt; EvReadDosagesRange 1 1; EvClose]) /\
  run (read_alleles_range ex_store 1 0 None)
    = (Ok (NdArray 0 6 []),
       [EvOpen None; EvRawSampleCt; EvReadAllelesRange 1 1; EvClose]) /\
  run (read_dosages_range ex_store 3 0 None)
    = (Err ValueError, [EvOpen None; EvRawSampleCt; EvClose]).
Proof. repeat split; reflexivity. Qed.

(** C5 (amended): no retrieval function checks the order of [sample_subset]
    or looks for duplicates in it.  The only thing done to the subset before
    the decoder is reached is its conversion to [uint32], which raises
    [OverflowError] when a position does not fit in 32 bits; a subset that is
    not strictly increasing (unsorted or with a duplicate) is otherwise
    passed on as it is to the decoder's open call, the rejection is the
    decoder's own, and the call ends there, before any read. *)
Theorem C5_unsorted_subset_reaches_decoder `{Dtype D} (st : pgen_store D)
    (variant_idx : nat) (variant_idxs : list nat) (start_idx end_idx : Z)
    (sample_subset : list nat) (tr : list event) :
  strictly_increasing sample_subset = false ->
  read_dosages st variant_idx (Some sample_subset) tr
    = refused_subset_outcome sample_subset tr /\
  read_alleles st variant_idx (Some sample_subset) tr
    = refused_subset_outcome sample_subset tr /\
  read_dosages_list st variant_idxs (Some sample_subset) tr
    = refused_subset_outcome sample_subset tr /\
  read_alleles_list st variant_idxs (Some sample_subset) tr
    = refused_subset_outcome sample_subset tr /\
  read_dosages_range st start_idx end_idx (Some sample_subset) tr
    = refused_subset_outcome sample_subset tr /\
  read_alleles_range st start_idx end_idx (Some sample_subset) tr
    = refused_subset_outcome sample_subset tr.
Proof.
  intros Hbad.
  assert (subset_ok st (Some sample_subset) = false) as Hrefused
    by (simpl; by rewrite Hbad).
  unfold refused_subset_outcome.
  unfold read_dosages, read_alleles, read_dosages_list, read_alleles_list,
    read_dosages_range, read_alleles_range.
  destruct (forallb fits_uint32 sample_subset) eqn:Hfits.
  - repeat split; by apply (session_refused st sample_subset).
  - repeat split; by apply (session_overflow st sample_subset).
Qed.

Lemma C5_witness :
  read_dosages ex_store 0 (Some [2; 0]) []
    = (Err DecoderError, [EvOpen (Some [2; 0])]) /\
  read_alleles ex_store 0 (Some [2; 0]) []
    = (Err DecoderError, [EvOpen (Some [2; 0])]) /\
  read_dosages_list ex_store [0; 1] (Some [2; 0]) []
    = (Err DecoderError, [EvOpen (Some [2; 0])]) /\
  read_alleles_list ex_store [0; 1] (Some [2; 0]) []
    = (Err DecoderError, [EvOpen (Some [2; 0])]) /\
  read_dosages_range ex_store 0 1 (Some [2; 0]) []
    = (Err DecoderError, [EvOpen (Some [2; 0])]) /\
  read_alleles_range ex_store 0 1 (Some [2; 0]) []
    = (Err DecoderError, [EvOpen (Some [2; 0])]).
Proof.
  apply (C5_unsorted_subset_reaches_decoder ex_store 0 [0; 1] 0 1 [2; 0] []).
  reflexivity.
Defined.

(** C5, as stated, fails: with the unsorted subset [2; 0], and with the
    duplicate subset [1; 1], the decoder is invoked: the trace of the call
    holds the open call made with that very subset. *)
Lemma C5_counterexample :
  run (read_dosages ex_store 0 (Some [2; 0]))
    = (Err DecoderError, [EvOpen (Some [2; 0])]) /\
  run (read_dosages_range ex_store 0 1 (Some [1; 1]))
    = (Err DecoderError, [EvOpen (Some [1; 1])]) /\
  (run (read_dosages ex_store 0 (Some [2; 0]))).2 <> [].
Proof. repeat split; try reflexivity. vm_compute. discriminate. Qed.

(** C7: when some requested variant id is not in the variant index, both
    id-keyed retrievals fail with [KeyError] and leave the trace as it was:
    no reader is opened, nothing is read, no buffer is produced. *)
Theorem C7_unknown_variant_id_KeyError `{Dtype D} (p : Pgen.t D)
    (variant_ids : list string) (tr : list event) :
  Exists (fun id => Pgen.variant_idx_dict p !! id = None) variant_ids ->
  Pgen.read_dosages_list p variant_ids tr = (Err KeyError, tr) /\
  Pgen.read_alleles_list p variant_ids tr = (Err KeyError, tr).
Proof.
  intros Hex.
  assert (mapM (dict_get (Pgen.variant_idx_dict p)) variant_ids = Err KeyError) as Hm.
  { apply mapM_result_Err.
    - intros id e. apply dict_get_only_KeyError.
    - eapply Exists_impl; [exact Hex|]. intros id Hid. simpl in Hid.
      unfold dict_get. by rewrite Hid. }
  unfold Pgen.read_dosages_list, Pgen.read_alleles_list.
  io_unfold. rewrite Hm. done.
Qed.

Lemma C7_witness :
  Pgen.read_dosages_list ex_session ["v1"; "no-such-id"] [] = (Err KeyError, []) /\
  Pgen.read_alleles_list ex_session ["v1"; "no-such-id"] [] = (Err KeyError, []).
Proof.
  apply (C7_unknown_variant_id_KeyError ex_session ["v1"; "no-such-id"] []).
  apply Exists_cons_tl, Exists_cons_hd. reflexivity.
Defined.

Lemma half_of_double n : (2 * n + 1 - 0) / 2 = n /\ (2 * n + 1 - 1) / 2 = n.
Proof.
  split.
  - rewrite Nat.sub_0_r. replace (2 * n + 1) with (1 + n * 2) by lia.
    rewrite Nat.div_add by lia. reflexivity.
  - replace (2 * n + 1 - 1) with (0 + n * 2) by lia.
    rewrite Nat.div_add by lia. reflexivity.
Qed.

(** The even positions of a decoded allele row hold the first allele of each
    decoded sample, the odd positions the second. *)
Lemma allele_row_deinterleaved {D} (r : PgenReader D) (v : nat) :
  slice_step2 0 (allele_row r v) = (fun s => (alleles_at (rd_store r) v s).1) <$> rd_samples r /\
  slice_step2 1 (allele_row r v) = (fun s => (alleles_at (rd_store r) v s).2) <$> rd_samples r.
Proof.
  unfold allele_row, slice_step2. simpl.
  induction (rd_samples r) as [|s l [IH1 IH2]]; [done|].
  simpl. destruct (alleles_at (rd_store r) v s) as [a b]. simpl.
  rewrite drop_0 in IH1. rewrite IH1. split; [done|].
  destruct l as [|s' l]; [done|].
  simpl in *. destruct (alleles_at (rd_store r) v s') as [a' b']. simpl in *.
  by rewrite IH2.
Qed.

(** C8: for known variant ids, [Pgen.read_alleles_list] returns two frames cut
    from the buffer the decoder filled, which holds for each requested
    variant, in the order requested, the interleaved allele codes of the
    selected samples and whose width is twice their number: the first frame
    holds the even positions of each row, that is the first allele code of
    each selected sample, the second the odd positions, the second code; the
    raw codes [0,1,-9,-9,1,1] over three samples give [0,-9,1] and
    [1,-9,1]. *)
Theorem C8_read_alleles_list_deinterleaves {D} (p : Pgen.t D)
    (variant_ids : list string) (tr : list event) :
  session_consistent p ->
  subset_ok (Pgen.pgen_file p) (Pgen.sample_idxs p) = true ->
  Forall (fun id => id ∈ Pgen.variant_ids p) variant_ids ->
  exists idxs raw,
    Forall2 (fun id k => Pgen.variant_idx_dict p !! id = Some k) variant_ids idxs /\
    raw = NdArray (length variant_ids) (2 * length (Pgen.sample_ids p))
            (allele_row (reader_of (Pgen.pgen_file p) (Pgen.sample_idxs p)) <$> idxs) /\
    read_alleles_list (Pgen.pgen_file p) idxs (Pgen.sample_idxs p) tr
      = (Ok raw, tr ++ session_trace (Pgen.sample_idxs p) [EvReadAllelesList idxs]) /\
    nd_cols raw = 2 * length (Pgen.sample_ids p) /\
    Pgen.read_alleles_list p variant_ids tr
      = (Ok (MkDataFrame
               (NdArray (length variant_ids) (length (Pgen.sample_ids p))
                        (slice_step2 0 <$> nd_data raw))
               variant_ids (Pgen.sample_ids p),
             MkDataFrame
               (NdArray (length variant_ids) (length (Pgen.sample_ids p))
                        (slice_step2 1 <$> nd_data raw))
               variant_ids (Pgen.sample_ids p)),
         tr ++ session_trace (Pgen.sample_idxs p) [EvReadAllelesList idxs]) /\
    slice_step2 0 <$> nd_data raw
      = (fun v => (fun s => (alleles_at (Pgen.pgen_file p) v s).1)
                    <$> rd_samples (reader_of (Pgen.pgen_file p) (Pgen.sample_idxs p)))
          <$> idxs /\
    slice_step2 1 <$> nd_data raw
      = (fun v => (fun s => (alleles_at (Pgen.pgen_file p) v s).2)
                    <$> rd_samples (reader_of (Pgen.pgen_file p) (Pgen.sample_idxs p)))
          <$> idxs /\
    (forall (row : list Z) (k : nat),
       slice_step2 0 row !! k = row !! (2 * k) /\
       slice_step2 1 row !! k = row !! (2 * k + 1)) /\
    slice_step2 0 [0; 1; -9; -9; 1; 1]%Z = [0; -9; 1]%Z /\
    slice_step2 1 [0; 1; -9; -9; 1; 1]%Z = [1; -9; 1]%Z.
Proof.
  intros (Hdict & Hvar & Hlab) Hok Hknown.
  destruct (variant_idxs_known _ _ Hknown) as (idxs & Hm & Hl & Hb).
  rewrite <- Hdict in Hm, Hl. rewrite Hvar in Hb.
  pose proof (mapM_result_length _ _ _ Hm) as Hlen.
  exists idxs. eexists. split; [exact Hl|].
  split; [reflexivity|].
  split; [rewrite read_alleles_list_Ok by done; by rewrite Hlen, Hlab|].
  cbn [nd_cols nd_data]. split; [done|]. split; [|split; [|split; [|split]]].
  - unfold Pgen.read_alleles_list.
    unfold mbind at 1, io_bind at 1, lift at 1. rewrite Hm.
    unfold mbind at 1, io_bind at 1.
    rewrite read_alleles_list_Ok by done.
    unfold nd_slice_cols_step2, pd_DataFrame. cbn [nd_rows nd_cols nd_data].
    destruct (half_of_double (sample_ct (Pgen.pgen_file p) (Pgen.sample_idxs p)))
      as [-> ->].
    rewrite <- Hlab, Hlen, !Nat.eqb_refl.
    reflexivity.
  - rewrite <- list_fmap_compose.
    apply Forall_fmap_ext, Forall_forall. intros v _.
    apply (proj1 (allele_row_deinterleaved
                    (reader_of (Pgen.pgen_file p) (Pgen.sample_idxs p)) v)).
  - rewrite <- list_fmap_compose.
    apply Forall_fmap_ext, Forall_forall. intros v _.
    apply (proj2 (allele_row_deinterleaved
                    (reader_of (Pgen.pgen_file p) (Pgen.sample_idxs p)) v)).
  - intros row k. rewrite !slice_step2_lookup. split; f_equal; lia.
  - split; reflexivity.
Qed.

Lemma C8_witness :
  exists idxs raw,
    Forall2 (fun id k => Pgen.variant_idx_dict ex_session !! id = Some k) ["v0"] idxs /\
    raw = NdArray 1 (2 * 3) (allele_row (reader_of ex_store None) <$> idxs) /\
    read_alleles_list ex_store idxs None []
      = (Ok raw, [] ++ session_trace None [EvReadAllelesList idxs]) /\
    nd_cols raw = 2 * 3 /\
    Pgen.read_alleles_list ex_session ["v0"] []
      = (Ok (MkDataFrame (NdArray 1 3 (slice_step2 0 <$> nd_data raw))
                         ["v0"] ["a"; "b"; "c"],
             MkDataFrame (NdArray 1 3 (slice_step2 1 <$> nd_data raw))
                         ["v0"] ["a"; "b"; "c"]),
         [] ++ session_trace None [EvReadAllelesList idxs]) /\
    slice_step2 0 <$> nd_data raw
      = (fun v => (fun s => (alleles_at ex_store v s).1) <$> [0; 1; 2]) <$> idxs /\
    slice_step2 1 <$> nd_data raw
      = (fun v => (fun s => (alleles_at ex_store v s).2) <$> [0; 1; 2]) <$> idxs /\
    (forall (row : list Z) (k : nat),
       slice_step2 0 row !! k = row !! (2 * k) /\
       slice_step2 1 row !! k = row !! (2 * k + 1)) /\
    slice_step2 0 [0; 1; -9; -9; 1; 1]%Z = [0; -9; 1]%Z /\
    slice_step2 1 [0; 1; -9; -9; 1; 1]%Z = [1; -9; 1]%Z.
Proof.
  apply (C8_read_alleles_list_deinterleaves ex_session ["v0"] []).
  - repeat split.
  - reflexivity.
  - apply (bool_decide_unpack _). vm_compute. reflexivity.
Defined.

(** The claim's example, run through the class: the store holds the raw codes
    [0,1,-9,-9,1,1] for every variant. *)
Example read_alleles_list_example :
  run (Pgen.read_alleles_list ex_session ["v0"])
  = (Ok (MkDataFrame (NdArray 1 3 [[0; -9; 1]%Z]) ["v0"] ["a"; "b"; "c"],
         MkDataFrame (NdArray 1 3 [[1; -9; 1]%Z]) ["v0"] ["a"; "b"; "c"]),
     [EvOpen None; EvRawSampleCt; EvReadAllelesList [0]; EvClose]).
Proof. reflexivity. Qed.

(** Whatever the active selection, the batch dosage retrieval opens the
    reader without a subset and decodes every sample of the file; the frame
    is then labelled with the selected ids. *)
Lemma Pgen_read_dosages_list_unrestricted `{Dtype D} (p : Pgen.t D)
    (variant_ids : list string) (tr : list event) :
  session_consistent p ->
  Forall (fun id => id ∈ Pgen.variant_ids p) variant_ids ->
  exists idxs,
    Forall2 (fun id k => Pgen.variant_idx_dict p !! id = Some k) variant_ids idxs /\
    Pgen.read_dosages_list p variant_ids tr
    = (pd_DataFrame
         (NdArray (length variant_ids) (raw_sample_ct (Pgen.pgen_file p))
                  (dosage_row (reader_of (Pgen.pgen_file p) None) <$> idxs))
         variant_ids (Pgen.sample_ids p),
       tr ++ session_trace None [EvReadDosagesList idxs]).
Proof.
  intros (Hdict & Hvar & Hlab) Hknown.
  destruct (variant_idxs_known _ _ Hknown) as (idxs & Hm & Hl & Hb).
  rewrite <- Hdict in Hm, Hl. rewrite Hvar in Hb.
  pose proof (mapM_result_length _ _ _ Hm) as Hlen.
  exists idxs. split; [exact Hl|].
  unfold Pgen.read_dosages_list.
  unfold mbind at 1, io_bind at 1, lift at 1. rewrite Hm.
  unfold mbind at 1, io_bind at 1.
  rewrite read_dosages_list_Ok by done.
  unfold lift, sample_ct. simpl. rewrite length_seq, Hlen. reflexivity.
Qed.

(** C1 (failing input): after selecting the single sample [b], the full-table
    retrieval decodes under the subset [1] and returns the one column of [b],
    whereas the batch retrieval opens the reader without a subset, decodes
    all three samples, and fails when the three columns are labelled with
    the one selected id. *)
Theorem C1_read_dosages_list_ignores_selection :
  Pgen.__init__ ex_files (Some ["b"]) = Ok ex_session_b /\
  run (Pgen.load_dosages_df ex_session_b)
    = (Ok (MkDataFrame (NdArray 3 1 [[1%Q]; [2%Q]; [0%Q]])
                       ["v0"; "v1"; "v2"] ["b"]),
       [EvOpen (Some [1]); EvReadDosagesRange 0 3; EvClose]) /\
  run (read_dosages_list ex_store [0] None)
    = (Ok (NdArray 1 3 [[0%Q; 1%Q; 2%Q]]),
       [EvOpen None; EvRawSampleCt; EvReadDosagesList [0]; EvClose]) /\
  run (Pgen.read_dosages_list ex_session_b ["v0"])
    = (Err ValueError,
       [EvOpen None; EvRawSampleCt; EvReadDosagesList [0]; EvClose]).
Proof. repeat split; vm_compute; reflexivity. Qed.


(** * Further properties of the module *)

(** ** The module-level retrieval functions *)

(** [num_samples], as every retrieval function computes it. *)
Lemma sample_ct_num_samples {D} (st : pgen_store D) (ss : option (list nat)) :
  sample_ct st ss = match ss with Some s => length s | None => raw_sample_ct st end.
Proof. unfold sample_ct. destruct ss; simpl; [done|]. apply length_seq. Qed.

Lemma read_alleles_Ok {D} (st : pgen_store D) (variant_idx : nat)
    (ss : option (list nat)) (tr : list event) :
  subset_ok st ss = true ->
  variant_idx < raw_variant_ct st ->
  read_alleles st variant_idx ss tr
  = (Ok (allele_row (reader_of st ss) variant_idx),
     tr ++ session_trace ss [EvReadAlleles variant_idx]).
Proof.
  intros Hok Hv. unfold read_alleles.
  rewrite session_prefix by done.
  unfold r_read_alleles, np_zeros1. io_unfold.
  cbn [rd_store reader_of fst snd].
  rewrite (proj2 (Nat.ltb_lt _ _)) by done.
  rewrite length_replicate. unfold sample_ct. rewrite Nat.leb_refl.
  cbn [andb]. rewrite overwrite_exact.
  - f_equal. unfold session_trace. rewrite <- !app_assoc. reflexivity.
  - rewrite length_replicate, allele_row_length. done.
Qed.

Lemma allele_row_lookup {D} (r : PgenReader D) (v n s : nat) :
  rd_samples r !! n = Some s ->
  allele_row r v !! (2 * n) = Some (alleles_at (rd_store r) v s).1 /\
  allele_row r v !! (2 * n + 1) = Some (alleles_at (rd_store r) v s).2.
Proof.
  intros Hn.
  destruct (allele_row_deinterleaved r v) as [H0 H1].
  assert (allele_row r v !! (2 * n) = slice_step2 0 (allele_row r v) !! n) as ->
    by (by rewrite slice_step2_lookup).
  assert (allele_row r v !! (2 * n + 1) = slice_step2 1 (allele_row r v) !! n) as ->
    by (rewrite slice_step2_lookup; f_equal; lia).
  rewrite H0, H1, !list_lookup_fmap, Hn. done.
Qed.

(** X1: the list retrieval of dosages returns one row per listed variant
    index, in the order listed (an index may be listed twice, the list may be
    empty), each row being what the single-variant retrieval returns for that
    index; the width is the number of selected samples. *)
Theorem X1_read_dosages_list_rows `{Dtype D} (st : pgen_store D)
    (variant_idxs : list nat) (ss : option (list nat)) (tr : list event) :
  subset_ok st ss = true ->
  Forall (fun v => v < raw_variant_ct st) variant_idxs ->
  exists m,
    read_dosages_list st variant_idxs ss tr
      = (Ok m, tr ++ session_trace ss [EvReadDosagesList variant_idxs]) /\
    nd_rows m = length variant_idxs /\
    nd_cols m = match ss with Some s => length s | None => raw_sample_ct st end /\
    length (nd_data m) = length variant_idxs /\
    forall k v, variant_idxs !! k = Some v ->
      exists row, nd_data m !! k = Some row /\
                  length row = nd_cols m /\
                  (read_dosages st v ss tr).1 = Ok row.
Proof.
  intros Hok Hvs. eexists. split; [by apply read_dosages_list_Ok|].
  cbn [nd_rows nd_cols nd_data].
  split; [done|]. split; [apply sample_ct_num_samples|].
  split; [by rewrite length_fmap|].
  intros k v Hk. exists (dosage_row (reader_of st ss) v).
  split; [by rewrite list_lookup_fmap, Hk|].
  split; [apply dosage_row_length|].
  rewrite read_dosages_Ok; [done|done|].
  rewrite Forall_forall in Hvs. apply Hvs. apply list_elem_of_lookup. eauto.
Qed.

Lemma X1_witness :
  exists m,
    read_dosages_list ex_store [2; 0; 2] (Some [0; 2]) []
      = (Ok m, [] ++ session_trace (Some [0; 2]) [EvReadDosagesList [2; 0; 2]]) /\
    nd_rows m = 3 /\
    nd_cols m = 2 /\
    length (nd_data m) = 3 /\
    forall k v, [2; 0; 2] !! k = Some v ->
      exists row, nd_data m !! k = Some row /\
                  length row = nd_cols m /\
                  (read_dosages ex_store v (Some [0; 2]) []).1 = Ok row.
Proof.
  apply (X1_read_dosages_list_rows ex_store [2; 0; 2] (Some [0; 2]) []).
  - reflexivity.
  - apply (bool_decide_unpack _). vm_compute. reflexivity.
Defined.

(** X2: the list retrieval of alleles returns one row per listed variant
    index, in the order listed, each row being what the single-variant
    retrieval returns for that index; the width is twice the number of
    selected samples. *)
Theorem X2_read_alleles_list_rows {D} (st : pgen_store D)
    (variant_idxs : list nat) (ss : option (list nat)) (tr : list event) :
  subset_ok st ss = true ->
  Forall (fun v => v < raw_variant_ct st) variant_idxs ->
  exists m,
    read_alleles_list st variant_idxs ss tr
      = (Ok m, tr ++ session_trace ss [EvReadAllelesList variant_idxs]) /\
    nd_rows m = length variant_idxs /\
    nd_cols m = 2 * match ss with Some s => length s | None => raw_sample_ct st end /\
    length (nd_data m) = length variant_idxs /\
    forall k v, variant_idxs !! k = Some v ->
      exists row, nd_data m !! k = Some row /\
                  length row = nd_cols m /\
                  (read_alleles st v ss tr).1 = Ok row.
Proof.
  intros Hok Hvs. eexists. split; [by apply read_alleles_list_Ok|].
  cbn [nd_rows nd_cols nd_data].
  split; [done|]. split; [by rewrite sample_ct_num_samples|].
  split; [by rewrite length_fmap|].
  intros k v Hk. exists (allele_row (reader_of st ss) v).
  split; [by rewrite list_lookup_fmap, Hk|].
  split; [apply allele_row_length|].
  rewrite read_alleles_Ok; [done|done|].
  rewrite Forall_forall in Hvs. apply Hvs. apply list_elem_of_lookup. eauto.
Qed.

Lemma X2_witness :
  exists m,
    read_alleles_list ex_store [1; 0] None []
      = (Ok m, [] ++ session_trace None [EvReadAllelesList [1; 0]]) /\
    nd_rows m = 2 /\
    nd_cols m = 2 * 3 /\
    length (nd_data m) = 2 /\
    forall k v, [1; 0] !! k = Some v ->
      exists row, nd_data m !! k = Some row /\
                  length row = nd_cols m /\
                  (read_alleles ex_store v None []).1 = Ok row.
Proof.
  apply (X2_read_alleles_list_rows ex_store [1; 0] None []).
  - reflexivity.
  - apply (bool_decide_unpack _). vm_compute. reflexivity.
Defined.

(** X3: the range retrieval of alleles is end-inclusive like the one of
    dosages: for [start_idx <= end_idx] within the file it calls the decoder
    with the exclusive end [end_idx + 1] and returns
    [end_idx - start_idx + 1] rows of width twice the number of selected
    samples, row [k] being the single-variant retrieval of variant
    [start_idx + k]. *)
Theorem X3_read_alleles_range_end_inclusive {D} (st : pgen_store D)
    (start_idx end_idx : nat) (ss : option (list nat)) (tr : list event) :
  subset_ok st ss = true ->
  start_idx <= end_idx ->
  end_idx < raw_variant_ct st ->
  exists m,
    read_alleles_range st (Z.of_nat start_idx) (Z.of_nat end_idx) ss tr
      = (Ok m, tr ++ session_trace ss
                 [EvReadAllelesRange (Z.of_nat start_idx) (Z.of_nat end_idx + 1)]) /\
    nd_rows m = end_idx - start_idx + 1 /\
    nd_cols m = 2 * match ss with Some s => length s | None => raw_sample_ct st end /\
    length (nd_data m) = end_idx - start_idx + 1 /\
    forall k, k <= end_idx - start_idx ->
      exists row, nd_data m !! k = Some row /\
                  (read_alleles st (start_idx + k) ss tr).1 = Ok row.
Proof.
  intros Hok Hle Hend. eexists.
  split; [apply read_alleles_range_Ok; [done|lia|lia]|].
  cbn [nd_rows nd_cols nd_data].
  assert (range_idxs (Z.of_nat start_idx) (Z.of_nat end_idx + 1)
          = seq start_idx (end_idx - start_idx + 1)) as ->.
  { unfold range_idxs. f_equal; lia. }
  split; [lia|]. split; [by rewrite sample_ct_num_samples|].
  split; [by rewrite length_fmap, length_seq|].
  intros k Hk. exists (allele_row (reader_of st ss) (start_idx + k)). split.
  - rewrite list_lookup_fmap, lookup_seq_lt by lia. done.
  - rewrite read_alleles_Ok by (done || lia). done.
Qed.

Lemma X3_witness :
  exists m,
    read_alleles_range ex_store 1 2 (Some [1]) []
      = (Ok m, [] ++ session_trace (Some [1]) [EvReadAllelesRange 1 (2 + 1)]) /\
    nd_rows m = 2 /\
    nd_cols m = 2 * 1 /\
    length (nd_data m) = 2 /\
    forall k, k <= 1 ->
      exists row, nd_data m !! k = Some row /\
                  (read_alleles ex_store (1 + k) (Some [1]) []).1 = Ok row.
Proof.
  apply (X3_read_alleles_range_end_inclusive ex_store 1 2 (Some [1]) []).
  - reflexivity.
  - lia.
  - simpl. lia.
Defined.

(** X4: a range retrieval returns the same array as the list retrieval of the
    consecutive indices [start_idx, ..., end_idx], for dosages and for
    alleles. *)
Theorem X4_range_is_list_of_consecutive `{Dtype D} (st : pgen_store D)
    (start_idx end_idx : nat) (ss : option (list nat)) (tr : list event) :
  subset_ok st ss = true ->
  start_idx <= end_idx ->
  end_idx < raw_variant_ct st ->
  (exists m,
     (read_dosages_range st (Z.of_nat start_idx) (Z.of_nat end_idx) ss tr).1 = Ok m /\
     (read_dosages_list st (seq start_idx (end_idx - start_idx + 1)) ss tr).1 = Ok m)
  /\ (exists a,
     (read_alleles_range st (Z.of_nat start_idx) (Z.of_nat end_idx) ss tr).1 = Ok a /\
     (read_alleles_list st (seq start_idx (end_idx - start_idx + 1)) ss tr).1 = Ok a).
Proof.
  intros Hok Hle Hend.
  assert (range_idxs (Z.of_nat start_idx) (Z.of_nat end_idx + 1)
          = seq start_idx (end_idx - start_idx + 1)) as Hidxs.
  { unfold range_idxs. f_equal; lia. }
  assert (Forall (fun v => v < raw_variant_ct st)
                 (seq start_idx (end_idx - start_idx + 1))) as Hvs.
  { apply Forall_seq. intros; lia. }
  assert (Z.to_nat (Z.of_nat end_idx - Z.of_nat start_idx + 1)
          = length (seq start_idx (end_idx - start_idx + 1))) as Hrows.
  { rewrite length_seq. lia. }
  split; eexists; split.
  - rewrite read_dosages_range_Ok by (done || lia). simpl.
    rewrite Hidxs, Hrows. reflexivity.
  - rewrite read_dosages_list_Ok by done. reflexivity.
  - rewrite read_alleles_range_Ok by (done || lia). cbn [fst].
    rewrite Hidxs, Hrows. reflexivity.
  - rewrite read_alleles_list_Ok by done. reflexivity.
Qed.

Lemma X4_witness :
  (exists m,
     (read_dosages_range ex_store 0 2 None []).1 = Ok m /\
     (read_dosages_list ex_store [0; 1; 2] None []).1 = Ok m)
  /\ (exists a,
     (read_alleles_range ex_store 0 2 None []).1 = Ok a /\
     (read_alleles_list ex_store [0; 1; 2] None []).1 = Ok a).
Proof.
  apply (X4_range_is_list_of_consecutive ex_store 0 2 None []).
  - reflexivity.
  - lia.
  - simpl. lia.
Defined.

(** X5: the single-variant retrieval of alleles returns a vector of twice the
    number of selected samples, whose elements [2n] and [2n+1] are the two
    allele codes of the [n]-th selected sample. *)
Theorem X5_read_alleles_pairs {D} (st : pgen_store D) (variant_idx : nat)
    (ss : option (list nat)) (tr : list event) :
  subset_ok st ss = true ->
  variant_idx < raw_variant_ct st ->
  exists alleles,
    read_alleles st variant_idx ss tr
      = (Ok alleles, tr ++ session_trace ss [EvReadAlleles variant_idx]) /\
    length alleles = 2 * match ss with Some s => length s | None => raw_sample_ct st end /\
    forall n s,
      default (seq 0 (raw_sample_ct st)) ss !! n = Some s ->
      alleles !! (2 * n) = Some (alleles_at st variant_idx s).1 /\
      alleles !! (2 * n + 1) = Some (alleles_at st variant_idx s).2.
Proof.
  intros Hok Hv. eexists. split; [by apply read_alleles_Ok|].
  split.
  - rewrite allele_row_length, <- sample_ct_num_samples. done.
  - intros n s Hn. by apply (allele_row_lookup (reader_of st ss)).
Qed.

Lemma X5_witness :
  exists alleles,
    read_alleles ex_store 0 (Some [0; 2]) []
      = (Ok alleles, [] ++ session_trace (Some [0; 2]) [EvReadAlleles 0]) /\
    length alleles = 2 * 2 /\
    forall n s,
      [0; 2] !! n = Some s ->
      alleles !! (2 * n) = Some (alleles_at ex_store 0 s).1 /\
      alleles !! (2 * n + 1) = Some (alleles_at ex_store 0 s).2.
Proof.
  apply (X5_read_alleles_pairs ex_store 0 (Some [0; 2]) []).
  - reflexivity.
  - simpl. lia.
Defined.

(** ** Sessions and the full table *)

(** The attributes a session keeps from its construction through every later
    [set_samples]. *)
Lemma session_fields {D} (files : plink_files D) sel0 sel sort (p0 p : Pgen.t D) :
  Pgen.__init__ files sel0 = Ok p0 ->
  Pgen.set_samples p0 sel sort = Ok p ->
  Pgen.pvar_df_id p = pvar_id files /\ Pgen.pgen_file p = pgen files /\
  Pgen.num_variants p = length (pvar_id files) /\
  Pgen.variant_ids p = pvar_id files /\
  Pgen.variant_idx_dict p = dict_of_enumerate (pvar_id files) /\
  Pgen.sample_id_list p = psam_index files.
Proof.
  intros (H1 & H2 & H3 & H4 & H5 & H6)%init_Ok Hp%set_samples_Ok.
  rewrite Hp. simpl. done.
Qed.

Lemma session_reached_consistent {D} (files : plink_files D) sel0 sel sort
    (p0 p : Pgen.t D) :
  files_consistent files ->
  Pgen.__init__ files sel0 = Ok p0 ->
  Pgen.set_samples p0 sel sort = Ok p ->
  session_consistent p.
Proof.
  intros [Hv Hs] Hinit Hset.
  destruct (init_Ok _ _ _ Hinit) as (H1 & H2 & H3 & H4 & H5 & H6).
  eapply set_samples_consistent; [| | |exact Hset].
  - by rewrite H2, H6.
  - by rewrite H5, H4.
  - by rewrite H4, H2.
Qed.

(** The full-table retrieval of a session whose selection the decoder
    accepts. *)
Lemma Pgen_load_dosages_df_Ok `{Dtype D} (p : Pgen.t D) (tr : list event) :
  Pgen.num_variants p = raw_variant_ct (Pgen.pgen_file p) ->
  length (Pgen.pvar_df_id p) = Pgen.num_variants p ->
  length (Pgen.sample_ids p) = sample_ct (Pgen.pgen_file p) (Pgen.sample_idxs p) ->
  subset_ok (Pgen.pgen_file p) (Pgen.sample_idxs p) = true ->
  Pgen.load_dosages_df p tr
  = (Ok (MkDataFrame
           (NdArray (Pgen.num_variants p) (length (Pgen.sample_ids p))
                    (dosage_row (reader_of (Pgen.pgen_file p) (Pgen.sample_idxs p))
                       <$> seq 0 (Pgen.num_variants p)))
           (Pgen.pvar_df_id p) (Pgen.sample_ids p)),
     tr ++ session_trace (Pgen.sample_idxs p)
             [EvReadDosagesRange 0 (Z.of_nat (Pgen.num_variants p) - 1 + 1)]).
Proof.
  intros Hn Hids Hlab Hok. unfold Pgen.load_dosages_df.
  unfold mbind at 1, io_bind at 1.
  rewrite read_dosages_range_Ok by (done || lia).
  unfold lift, pd_DataFrame. cbn [nd_rows nd_cols].
  assert (Z.to_nat (Z.of_nat (Pgen.num_variants p) - 1 - 0 + 1) = Pgen.num_variants p)
    as -> by lia.
  assert (range_idxs 0 (Z.of_nat (Pgen.num_variants p) - 1 + 1)
          = seq 0 (Pgen.num_variants p)) as ->.
  { unfold range_idxs. f_equal; lia. }
  rewrite <- Hlab, Hids, !Nat.eqb_refl. reflexivity.
Qed.

(** X6: for a session built from consistent files whose selection the decoder
    accepts, [Pgen.load_dosages_df] reads the range [(0, num_variants - 1)]
    under the selected positions and returns a frame with one row per
    variant of the file in store order, labelled by the pvar ids, and one
    column per selected sample, labelled by the selected ids; row [k] is the
    single-variant retrieval of variant [k].  A file without variants gives
    a frame without rows. *)
Theorem X6_Pgen_load_dosages_df `{Dtype D} (files : plink_files D)
    (sel0 sel : option (list string)) (sort : bool) (p0 p : Pgen.t D)
    (tr : list event) :
  files_consistent files ->
  Pgen.__init__ files sel0 = Ok p0 ->
  Pgen.set_samples p0 sel sort = Ok p ->
  subset_ok (pgen files) (Pgen.sample_idxs p) = true ->
  exists m,
    Pgen.load_dosages_df p tr
      = (Ok (MkDataFrame m (pvar_id files) (Pgen.sample_ids p)),
         tr ++ session_trace (Pgen.sample_idxs p)
                 [EvReadDosagesRange 0 (Z.of_nat (length (pvar_id files)) - 1 + 1)]) /\
    nd_rows m = length (pvar_id files) /\
    nd_cols m = length (Pgen.sample_ids p) /\
    forall k, k < length (pvar_id files) ->
      exists row, nd_data m !! k = Some row /\
                  (read_dosages (pgen files) k (Pgen.sample_idxs p) tr).1 = Ok row.
Proof.
  intros Hfiles Hinit Hset Hok.
  destruct (session_fields _ _ _ _ _ _ Hinit Hset) as (H1 & H2 & H3 & H4 & H5 & H6).
  destruct (session_reached_consistent _ _ _ _ _ _ Hfiles Hinit Hset) as (_ & Hvar & Hlab).
  destruct Hfiles as [Hv Hs].
  eexists. split.
  - rewrite Pgen_load_dosages_df_Ok.
    + rewrite H1, H2, H3. reflexivity.
    + by rewrite H3, H2.
    + by rewrite H1, H3.
    + done.
    + by rewrite H2.
  - cbn [nd_rows nd_cols nd_data]. split; [done|]. split; [done|].
    intros k Hk. eexists. split.
    + rewrite list_lookup_fmap, lookup_seq_lt by done. reflexivity.
    + rewrite read_dosages_Ok by (done || lia). reflexivity.
Qed.

Lemma X6_witness :
  exists m,
    Pgen.load_dosages_df ex_session_b []
      = (Ok (MkDataFrame m ["v0"; "v1"; "v2"] ["b"]),
         [] ++ session_trace (Some [1]) [EvReadDosagesRange 0 (3 - 1 + 1)]) /\
    nd_rows m = 3 /\
    nd_cols m = 1 /\
    forall k, k < 3 ->
      exists row, nd_data m !! k = Some row /\
                  (read_dosages ex_store k (Some [1]) []).1 = Ok row.
Proof.
  apply (X6_Pgen_load_dosages_df ex_files None (Some ["b"]) true
           ex_session ex_session_b []).
  - split; reflexivity.
  - reflexivity.
  - reflexivity.
  - reflexivity.
Defined.

(** X7: the module-level [load_dosages_df] fails with the [ValueError] of
    [list.index] when a selected sample id is not in the sample table, and
    does so before any decoder call. *)
Theorem X7_load_dosages_df_unknown_sample `{Dtype D} (files : plink_files D)
    (select_samples : list string) (tr : list event) :
  Exists (fun id => id ∉ psam_index files) select_samples ->
  load_dosages_df files (Some select_samples) tr = (Err ValueError, tr).
Proof.
  intros Hex. unfold load_dosages_df, Pgen.__init__.
  rewrite set_samples_unknown by done. reflexivity.
Qed.

Lemma X7_witness :
  load_dosages_df ex_files (Some ["a"; "nobody"]) [] = (Err ValueError, []).
Proof.
  apply (X7_load_dosages_df_unknown_sample ex_files ["a"; "nobody"] []).
  apply (bool_decide_unpack _). vm_compute. reflexivity.
Defined.

(** X8: without a selection the module-level [load_dosages_df] returns the
    whole table: one row per variant and one column per sample of the file,
    labelled by the pvar ids and the psam ids, the entry of variant [v] and
    sample [s] being the dosage the file holds for them; the decoder is
    opened without a subset. *)
Theorem X8_load_dosages_df_whole_table `{Dtype D} (files : plink_files D)
    (tr : list event) :
  files_consistent files ->
  load_dosages_df files None tr
  = (Ok (MkDataFrame
           (NdArray (length (pvar_id files)) (length (psam_index files))
              ((fun v => dosage_at (pgen files) v <$> seq 0 (length (psam_index files)))
                 <$> seq 0 (length (pvar_id files))))
           (pvar_id files) (psam_index files)),
     tr ++ [EvOpen None; EvRawSampleCt;
            EvReadDosagesRange 0 (Z.of_nat (length (pvar_id files)) - 1 + 1);
            EvClose]).
Proof.
  intros [Hv Hs]. unfold load_dosages_df.
  unfold mbind at 1, io_bind at 1, lift at 1. cbn [Pgen.__init__ Pgen.set_samples].
  rewrite Pgen_load_dosages_df_Ok; simpl; try done.
  - unfold dosage_row. simpl. rewrite Hs. reflexivity.
  - unfold sample_ct. simpl. by rewrite length_seq.
Qed.

Lemma X8_witness :
  load_dosages_df ex_files None []
  = (Ok (MkDataFrame
           (NdArray 3 3
              ((fun v => dosage_at ex_store v <$> [0; 1; 2]) <$> [0; 1; 2]))
           ["v0"; "v1"; "v2"] ["a"; "b"; "c"]),
     [EvOpen None; EvRawSampleCt; EvReadDosagesRange 0 (3 - 1 + 1); EvClose]).
Proof.
  apply (X8_load_dosages_df_whole_table ex_files []). split; reflexivity.
Defined.

(** ** Selections the decoder accepts *)

Lemma strictly_increasing_Sorted (l : list nat) :
  strictly_increasing l = true <-> Sorted lt l.
Proof.
  induction l as [|x l IH]; [split; [constructor|done]|].
  destruct l as [|y l].
  - split; [repeat constructor|done].
  - change (strictly_increasing (x :: y :: l))
      with ((x <? y) && strictly_increasing (y :: l)).
    rewrite andb_true_iff, Nat.ltb_lt, IH. split.
    + intros [Hxy Hs]. constructor; [done|]. by constructor.
    + intros Hs. inversion Hs as [|? ? Hs' Hhd]. by inversion Hhd.
Qed.

Lemma Sorted_le_NoDup_lt (l : list nat) : Sorted le l -> NoDup l -> Sorted lt l.
Proof.
  induction 1 as [|x l Hs IH Hhd]; intros Hnd; [constructor|].
  apply NoDup_cons in Hnd as [Hx Hnd]. constructor; [auto|].
  destruct Hhd as [|y l' Hxy]; constructor.
  assert (x <> y) by (intros ->; apply Hx; left). lia.
Qed.

Lemma Sorted_lt_NoDup (l : list nat) : Sorted lt l -> NoDup l.
Proof.
  intros Hs. apply (Sorted_StronglySorted lt) in Hs.
  induction Hs as [|x l _ IH Hall]; constructor; [|done].
  intros Hx. rewrite Forall_forall in Hall. specialize (Hall _ Hx). lia.
Qed.

Lemma positions_NoDup sil (ids : list string) :
  Forall (fun id => id ∈ sil) ids ->
  NoDup (position_of sil <$> ids) <-> NoDup ids.
Proof.
  intros Hall. split; [apply NoDup_fmap_1|].
  apply NoDup_fmap_2_strong. intros x y Hx Hy Heq.
  rewrite Forall_forall in Hall.
  pose proof (position_of_lookup sil x (Hall _ Hx)) as Hpx.
  pose proof (position_of_lookup sil y (Hall _ Hy)) as Hpy.
  rewrite Heq in Hpx. congruence.
Qed.

Lemma positions_in_range sil (ids : list string) :
  Forall (fun id => id ∈ sil) ids ->
  Forall (fun k => k < length sil) (position_of sil <$> ids).
Proof.
  intros Hall. apply Forall_fmap. eapply Forall_impl; [exact Hall|].
  intros id Hid. simpl. eapply lookup_lt_Some. by apply position_of_lookup.
Qed.

Lemma positions_fit sil (ids : list string) :
  (Z.of_nat (length sil) <= 4294967296)%Z ->
  Forall (fun id => id ∈ sil) ids ->
  Forall (fun k => fits_uint32 k = true) (position_of sil <$> ids).
Proof.
  intros Hfit Hall. eapply Forall_impl; [by apply positions_in_range|].
  intros k Hk. simpl in Hk. unfold fits_uint32. apply Z.ltb_lt. lia.
Qed.

(** The sorted positions of known ids, in a file whose sample count fits 32
    bits, are accepted by the decoder exactly when no id is requested
    twice. *)
Lemma sorted_positions_accepted {D} (st : pgen_store D) sil (ids : list string) :
  raw_sample_ct st = length sil ->
  (Z.of_nat (length sil) <= 4294967296)%Z ->
  Forall (fun id => id ∈ sil) ids ->
  subset_ok st (Some (sorted_positions sil ids)) = true <-> NoDup ids.
Proof.
  intros Hraw Hfit Hall. unfold sorted_positions. simpl.
  rewrite !andb_true_iff, strictly_increasing_Sorted.
  rewrite <- (positions_NoDup sil ids Hall). split.
  - intros [[Hs _] _]. apply Sorted_lt_NoDup in Hs.
    by rewrite merge_sort_Permutation in Hs.
  - intros Hnd. split; [split|].
    + apply Sorted_le_NoDup_lt; [apply Sorted_merge_sort; apply _|].
      by rewrite merge_sort_Permutation.
    + apply forallb_forall. intros k Hk%list_elem_of_In.
      rewrite merge_sort_Permutation in Hk.
      pose proof (positions_fit sil ids Hfit Hall) as Hr.
      rewrite Forall_forall in Hr. by apply Hr.
    + apply forallb_forall. intros k Hk%list_elem_of_In.
      rewrite merge_sort_Permutation in Hk. apply Nat.ltb_lt. rewrite Hraw.
      pose proof (positions_in_range sil ids Hall) as Hr.
      rewrite Forall_forall in Hr. by apply Hr.
Qed.

(** X9: for a non-empty list of known sample ids, in a file whose sample
    count fits 32 bits, [set_samples] with [sort=True] stores the first-match
    positions of the requested ids in ascending order, beside the requested
    ids rearranged (a repeated id is kept, not removed); the stored positions
    are accepted by the decoder (strictly increasing and within the file)
    exactly when no id was requested twice. *)
Theorem X9_sorted_selection_accepted_iff_distinct {D} (self : Pgen.t D)
    (ids : list string) :
  raw_sample_ct (Pgen.pgen_file self) = length (Pgen.sample_id_list self) ->
  (Z.of_nat (length (Pgen.sample_id_list self)) <= 4294967296)%Z ->
  Forall (fun id => id ∈ Pgen.sample_id_list self) ids ->
  ids <> [] ->
  exists p,
    Pgen.set_samples self (Some ids) true = Ok p /\
    Pgen.sample_idxs p = Some (sorted_positions (Pgen.sample_id_list self) ids) /\
    Pgen.sample_ids p ≡ₚ ids /\
    Forall2 (first_match (Pgen.sample_id_list self))
            (Pgen.sample_ids p) (sorted_positions (Pgen.sample_id_list self) ids) /\
    (subset_ok (Pgen.pgen_file p) (Pgen.sample_idxs p) = true <-> NoDup ids).
Proof.
  intros Hraw Hfit Hall _. eexists. split; [by apply set_samples_sort_true|].
  cbn [Pgen.with_selection Pgen.sample_ids Pgen.sample_idxs Pgen.pgen_file].
  split; [reflexivity|]. split; [|split].
  - rewrite <- (store_ids_positions _ ids Hall) at 2.
    unfold store_ids. apply fmap_Permutation, merge_sort_Permutation.
  - eapply sorted_positions_first_match; [exact Hall|].
    apply merge_sort_Permutation.
  - by apply (sorted_positions_accepted (Pgen.pgen_file self)).
Qed.

Lemma X9_witness :
  exists p,
    Pgen.set_samples ex_session (Some ["c"; "a"; "c"]) true = Ok p /\
    Pgen.sample_idxs p = Some (sorted_positions ["a"; "b"; "c"] ["c"; "a"; "c"]) /\
    Pgen.sample_ids p ≡ₚ ["c"; "a"; "c"] /\
    Forall2 (first_match ["a"; "b"; "c"])
            (Pgen.sample_ids p) (sorted_positions ["a"; "b"; "c"] ["c"; "a"; "c"]) /\
    (subset_ok (Pgen.pgen_file p) (Pgen.sample_idxs p) = true
     <-> NoDup ["c"; "a"; "c"]).
Proof.
  apply (X9_sorted_selection_accepted_iff_distinct ex_session ["c"; "a"; "c"]).
  - reflexivity.
  - simpl. lia.
  - apply (bool_decide_unpack _). vm_compute. reflexivity.
  - discriminate.
Defined.

(** X10: for a non-empty list of distinct known sample ids and consistent
    files whose sample count fits 32 bits, the module-level
    [load_dosages_df] returns the dosages of every variant for the selected
    samples, the columns being in store order whatever the order of the
    request: column [j] is labelled by the id found at the [j]-th smallest
    selected position and holds the dosages of that position. *)
Theorem X10_load_dosages_df_selected `{Dtype D} (files : plink_files D)
    (ids : list string) (tr : list event) :
  files_consistent files ->
  (Z.of_nat (length (psam_index files)) <= 4294967296)%Z ->
  Forall (fun id => id ∈ psam_index files) ids ->
  NoDup ids ->
  ids <> [] ->
  load_dosages_df files (Some ids) tr
  = (Ok (MkDataFrame
           (NdArray (length (pvar_id files)) (length ids)
              ((fun v => dosage_at (pgen files) v
                           <$> sorted_positions (psam_index files) ids)
                 <$> seq 0 (length (pvar_id files))))
           (pvar_id files)
           (store_ids (psam_index files) (sorted_positions (psam_index files) ids))),
     tr ++ [EvOpen (Some (sorted_positions (psam_index files) ids));
            EvReadDosagesRange 0 (Z.of_nat (length (pvar_id files)) - 1 + 1);
            EvClose]).
Proof.
  intros [Hv Hs] Hfit Hall Hnd _. unfold load_dosages_df, Pgen.__init__.
  rewrite set_samples_sort_true by done.
  unfold mbind at 1, io_bind at 1, lift at 1.
  cbn [Pgen.sample_id_list].
  fold (sorted_positions (psam_index files) ids).
  assert (length (store_ids (psam_index files)
                    (sorted_positions (psam_index files) ids)) = length ids) as Hlen.
  { unfold store_ids, sorted_positions. rewrite length_fmap.
    rewrite (Permutation_length (merge_sort_Permutation _ _)).
    by rewrite length_fmap. }
  rewrite Pgen_load_dosages_df_Ok; simpl; try done.
  - by rewrite Hlen.
  - unfold sample_ct. simpl. unfold store_ids. by rewrite length_fmap.
  - by apply (sorted_positions_accepted (pgen files)).
Qed.

Lemma X10_witness :
  load_dosages_df ex_files (Some ["c"; "a"]) []
  = (Ok (MkDataFrame
           (NdArray 3 2
              ((fun v => dosage_at ex_store v <$> sorted_positions ["a"; "b"; "c"] ["c"; "a"])
                 <$> [0; 1; 2]))
           ["v0"; "v1"; "v2"]
           (store_ids ["a"; "b"; "c"] (sorted_positions ["a"; "b"; "c"] ["c"; "a"]))),
     [EvOpen (Some (sorted_positions ["a"; "b"; "c"] ["c"; "a"]));
      EvReadDosagesRange 0 (3 - 1 + 1); EvClose]).
Proof.
  apply (X10_load_dosages_df_selected ex_files ["c"; "a"] []).
  - split; reflexivity.
  - simpl. lia.
  - apply (bool_decide_unpack _). vm_compute. reflexivity.
  - apply (bool_decide_unpack _). vm_compute. reflexivity.
  - discriminate.
Defined.

(** The request [c, a] on the example files gives the columns [a, c]. *)
Example load_dosages_df_example :
  run (load_dosages_df ex_files (Some ["c"; "a"]))
  = (Ok (MkDataFrame (NdArray 3 2 [[0%Q; 2%Q]; [1%Q; 0%Q]; [2%Q; 1%Q]])
                     ["v0"; "v1"; "v2"] ["a"; "c"]),
     [EvOpen (Some [0; 2]); EvReadDosagesRange 0 3; EvClose]).
Proof. vm_compute. reflexivity. Qed.

(** ** The variant index and the selection, round trips *)

(** X11: after construction every id of the variant table is a key of the
    index, the position it is mapped to is below [num_variants], and the id
    at that position is the id looked up; the keys of the index are exactly
    the ids of the table. *)
Theorem X11_variant_index_round_trip {D} (files : plink_files D)
    (select_samples : option (list string)) (p : Pgen.t D) (id : string) :
  Pgen.__init__ files select_samples = Ok p ->
  id ∈ pvar_id files ->
  (exists k, Pgen.variant_idx_dict p !! id = Some k /\
             k < Pgen.num_variants p /\
             Pgen.variant_ids p !! k = Some id)
  /\ dom (Pgen.variant_idx_dict p) = (list_to_set (pvar_id files) : gset string).
Proof.
  intros (_ & _ & -> & -> & -> & _)%init_Ok Hid. split.
  - destruct (dict_of_enumerate (pvar_id files) !! id) as [k|] eqn:Hk.
    2:{ apply dict_of_enumerate_None in Hk. done. }
    exists k. apply dict_of_enumerate_lookup in Hk as [Hk _].
    split; [done|]. split; [by eapply lookup_lt_Some|done].
  - apply set_eq. intros x.
    rewrite elem_of_list_to_set. split.
    + intros Hx. destruct (decide (x ∈ pvar_id files)) as [|Hout]; [done|].
      apply dict_of_enumerate_None in Hout. apply not_elem_of_dom in Hout. done.
    + intros Hx. destruct (decide (x ∈ dom (dict_of_enumerate (pvar_id files))))
        as [|Hout]; [done|].
      apply not_elem_of_dom, dict_of_enumerate_None in Hout. done.
Qed.

Lemma X11_witness :
  (exists k, Pgen.variant_idx_dict ex_session !! "v2" = Some k /\
             k < Pgen.num_variants ex_session /\
             Pgen.variant_ids ex_session !! k = Some "v2")
  /\ dom (Pgen.variant_idx_dict ex_session)
     = (list_to_set ["v0"; "v1"; "v2"] : gset string).
Proof.
  apply (X11_variant_index_round_trip ex_files None ex_session "v2").
  - reflexivity.
  - apply (bool_decide_unpack _). vm_compute. reflexivity.
Defined.

Lemma set_samples_Ok_known {D} (self p : Pgen.t D) ids sort :
  Pgen.set_samples self (Some ids) sort = Ok p ->
  Forall (fun id => id ∈ Pgen.sample_id_list self) ids.
Proof.
  intros Hp. apply Forall_forall. intros id Hid.
  destruct (decide (id ∈ Pgen.sample_id_list self)) as [|Hout]; [done|].
  assert (Exists (fun id => id ∉ Pgen.sample_id_list self) ids) as Hex
    by (apply Exists_exists; eauto).
  apply (set_samples_unknown self ids sort) in Hex. congruence.
Qed.

Lemma store_ids_known sil (ids : list string) (idxs : list nat) :
  Forall (fun id => id ∈ sil) ids ->
  idxs ≡ₚ position_of sil <$> ids ->
  Forall (fun id => id ∈ sil) (store_ids sil idxs) /\
  position_of sil <$> store_ids sil idxs = idxs.
Proof.
  intros Hall Hperm.
  assert (Forall (fun k => exists id, id ∈ sil /\ k = position_of sil id) idxs) as Hk.
  { rewrite Hperm. apply Forall_fmap. eapply Forall_impl; [exact Hall|].
    intros id Hid. simpl. by exists id. }
  unfold store_ids. split.
  - apply Forall_fmap. eapply Forall_impl; [exact Hk|].
    intros k (id & Hid & ->). simpl. by rewrite position_of_lookup.
  - rewrite <- list_fmap_compose. rewrite <- (list_fmap_id idxs) at 2.
    apply Forall_fmap_ext. eapply Forall_impl; [exact Hk|].
    intros k (id & Hid & ->). simpl. by rewrite position_of_lookup.
Qed.

(** X12: the ids and the positions a successful [set_samples] stores stay a
    matching pair: selecting the presented ids again, as they are, stores
    the same selection, and so does selecting them with [sort=True] after a
    sorted selection. *)
Theorem X12_set_samples_reselect {D} (self p : Pgen.t D) (ids : list string)
    (sort : bool) :
  Pgen.set_samples self (Some ids) sort = Ok p ->
  Pgen.set_samples p (Some (Pgen.sample_ids p)) false = Ok p /\
  (sort = true -> Pgen.set_samples p (Some (Pgen.sample_ids p)) true = Ok p).
Proof.
  intros Hp. pose proof (set_samples_Ok_known _ _ _ _ Hp) as Hall.
  destruct sort.
  - rewrite set_samples_sort_true in Hp by done. injection Hp as <-.
    cbn [Pgen.with_selection Pgen.sample_ids].
    set (sil := Pgen.sample_id_list self) in *.
    set (sorted := merge_sort le (position_of sil <$> ids)).
    destruct (store_ids_known sil ids sorted Hall) as [Hknown Hpos];
      [apply merge_sort_Permutation|].
    split; [|intros _].
    + rewrite set_samples_sort_false by done. simpl. fold sil. by rewrite Hpos.
    + rewrite set_samples_sort_true by done. simpl. fold sil. rewrite Hpos.
      assert (merge_sort le sorted = sorted) as ->; [|done].
      apply (Sorted_unique le).
      * apply Sorted_merge_sort; apply _.
      * apply Sorted_merge_sort; apply _.
      * apply merge_sort_Permutation.
  - rewrite set_samples_sort_false in Hp by done. injection Hp as <-.
    split; [|discriminate].
    rewrite set_samples_sort_false by done. reflexivity.
Qed.

Lemma X12_witness :
  Pgen.set_samples (Pgen.with_selection ex_session ["a"; "c"] (Some [0; 2]))
                   (Some ["a"; "c"]) false
    = Ok (Pgen.with_selection ex_session ["a"; "c"] (Some [0; 2])) /\
  (true = true ->
   Pgen.set_samples (Pgen.with_selection ex_session ["a"; "c"] (Some [0; 2]))
                    (Some ["a"; "c"]) true
     = Ok (Pgen.with_selection ex_session ["a"; "c"] (Some [0; 2]))).
Proof.
  apply (X12_set_samples_reselect ex_session
           (Pgen.with_selection ex_session ["a"; "c"] (Some [0; 2]))
           ["c"; "a"] true).
  reflexivity.
Defined.

(** X13: a selection does not build on the one before it: after a successful
    [set_samples], a further call gives what the same call would have given
    on the session before. *)
Theorem X13_set_samples_last_wins {D} (self p : Pgen.t D)
    (a b : option (list string)) (s t : bool) :
  Pgen.set_samples self a s = Ok p ->
  Pgen.set_samples p b t = Pgen.set_samples self b t.
Proof.
  intros Hp%set_samples_Ok. rewrite Hp. unfold Pgen.set_samples.
  cbn [Pgen.with_selection Pgen.sample_id_list].
  destruct b as [ids|]; [|reflexivity].
  destruct (mapM _ ids) as [idxs|]; [|reflexivity]. simpl.
  destruct t; [|reflexivity].
  destruct (mapM (list_get idxs) _); [|reflexivity]. simpl.
  destruct (mapM (list_get ids) _); reflexivity.
Qed.

Lemma X13_witness :
  Pgen.set_samples ex_session_b (Some ["c"; "a"]) true
  = Pgen.set_samples ex_session (Some ["c"; "a"]) true.
Proof.
  apply (X13_set_samples_last_wins ex_session ex_session_b (Some ["b"]) _ true true).
  reflexivity.
Defined.

(** ** The id-keyed retrievals *)

(** X14: for a session consistent with its files, a selection the decoder
    accepts and known variant ids, the two frames of [Pgen.read_alleles_list]
    are labelled by the requested ids and the selected sample ids; for the
    variant of each requested id, in the order requested, the first frame
    holds the first allele code of each selected sample and the second frame
    the second. *)
Theorem X14_read_alleles_list_frames {D} (p : Pgen.t D)
    (variant_ids : list string) (tr : list event) :
  session_consistent p ->
  subset_ok (Pgen.pgen_file p) (Pgen.sample_idxs p) = true ->
  Forall (fun id => id ∈ Pgen.variant_ids p) variant_ids ->
  exists idxs df1 df2,
    Forall2 (fun id k => Pgen.variant_idx_dict p !! id = Some k) variant_ids idxs /\
    (Pgen.read_alleles_list p variant_ids tr).1 = Ok (df1, df2) /\
    df_index df1 = variant_ids /\ df_index df2 = variant_ids /\
    df_columns df1 = Pgen.sample_ids p /\ df_columns df2 = Pgen.sample_ids p /\
    let samples := default (seq 0 (raw_sample_ct (Pgen.pgen_file p))) (Pgen.sample_idxs p) in
    nd_data (df_values df1)
      = (fun v => (fun s => (alleles_at (Pgen.pgen_file p) v s).1) <$> samples) <$> idxs /\
    nd_data (df_values df2)
      = (fun v => (fun s => (alleles_at (Pgen.pgen_file p) v s).2) <$> samples) <$> idxs.
Proof.
  intros (Hdict & Hvar & Hlab) Hok Hknown.
  destruct (variant_idxs_known _ _ Hknown) as (idxs & Hm & Hl & Hb).
  rewrite <- Hdict in Hm, Hl. rewrite Hvar in Hb.
  pose proof (mapM_result_length _ _ _ Hm) as Hlen.
  exists idxs. eexists _, _. split; [exact Hl|].
  split.
  { unfold Pgen.read_alleles_list.
    unfold mbind at 1, io_bind at 1, lift at 1. rewrite Hm.
    unfold mbind at 1, io_bind at 1.
    rewrite read_alleles_list_Ok by done.
    unfold nd_slice_cols_step2, pd_DataFrame. cbn [nd_rows nd_cols nd_data].
    destruct (half_of_double (sample_ct (Pgen.pgen_file p) (Pgen.sample_idxs p)))
      as [-> ->].
    rewrite <- Hlab, Hlen, !Nat.eqb_refl.
    reflexivity. }
  cbn [df_index df_columns df_values nd_data].
  repeat (split; [reflexivity|]).
  rewrite <- !list_fmap_compose. split.
  - apply Forall_fmap_ext, Forall_forall. intros v _.
    apply (proj1 (allele_row_deinterleaved
                    (reader_of (Pgen.pgen_file p) (Pgen.sample_idxs p)) v)).
  - apply Forall_fmap_ext, Forall_forall. intros v _.
    apply (proj2 (allele_row_deinterleaved
                    (reader_of (Pgen.pgen_file p) (Pgen.sample_idxs p)) v)).
Qed.

Lemma X14_witness :
  exists idxs df1 df2,
    Forall2 (fun id k => Pgen.variant_idx_dict ex_session_b !! id = Some k)
            ["v2"; "v0"] idxs /\
    (Pgen.read_alleles_list ex_session_b ["v2"; "v0"] []).1 = Ok (df1, df2) /\
    df_index df1 = ["v2"; "v0"] /\ df_index df2 = ["v2"; "v0"] /\
    df_columns df1 = ["b"] /\ df_columns df2 = ["b"] /\
    let samples := [1] in
    nd_data (df_values df1)
      = (fun v => (fun s => (alleles_at ex_store v s).1) <$> samples) <$> idxs /\
    nd_data (df_values df2)
      = (fun v => (fun s => (alleles_at ex_store v s).2) <$> samples) <$> idxs.
Proof.
  apply (X14_read_alleles_list_frames ex_session_b ["v2"; "v0"] []).
  - repeat split.
  - reflexivity.
  - apply (bool_decide_unpack _). vm_compute. reflexivity.
Defined.

(** X15: with no active selection and known variant ids,
    [Pgen.read_dosages_list] returns a frame with one row per requested id,
    in the order requested whatever the positions of the variants in the
    file, labelled by the requested ids and by all sample ids; row [k] is the
    single-variant retrieval of the position the index gives for the [k]-th
    id. *)
Theorem X15_Pgen_read_dosages_list_no_selection `{Dtype D} (p : Pgen.t D)
    (variant_ids : list string) (tr : list event) :
  session_consistent p ->
  Pgen.sample_idxs p = None ->
  Forall (fun id => id ∈ Pgen.variant_ids p) variant_ids ->
  exists idxs m,
    Forall2 (fun id k => Pgen.variant_idx_dict p !! id = Some k) variant_ids idxs /\
    Pgen.read_dosages_list p variant_ids tr
      = (Ok (MkDataFrame m variant_ids (Pgen.sample_ids p)),
         tr ++ session_trace None [EvReadDosagesList idxs]) /\
    nd_rows m = length variant_ids /\
    nd_cols m = length (Pgen.sample_ids p) /\
    forall k v, idxs !! k = Some v ->
      exists row, nd_data m !! k = Some row /\
                  (read_dosages (Pgen.pgen_file p) v None tr).1 = Ok row.
Proof.
  intros Hcons Hnone Hknown.
  destruct (Pgen_read_dosages_list_unrestricted p variant_ids tr Hcons Hknown)
    as (idxs & Hl & Hrun).
  destruct Hcons as (Hdict & Hvar & Hlab).
  rewrite Hnone, sample_ct_num_samples in Hlab.
  assert (Forall (fun v => v < raw_variant_ct (Pgen.pgen_file p)) idxs) as Hb.
  { apply Forall_forall. intros v [k Hk]%list_elem_of_lookup.
    destruct (Forall2_lookup_r _ _ _ _ _ Hl Hk) as (id & _ & Hid).
    rewrite Hdict in Hid. apply dict_of_enumerate_lookup in Hid as [Hid _].
    rewrite <- Hvar. by eapply lookup_lt_Some. }
  exists idxs. eexists. split; [exact Hl|]. split.
  - rewrite Hrun. unfold pd_DataFrame. cbn [nd_rows nd_cols].
    rewrite <- Hlab, !Nat.eqb_refl. reflexivity.
  - cbn [nd_rows nd_cols nd_data]. split; [done|]. split; [done|].
    intros k v Hk. eexists. split.
    + rewrite list_lookup_fmap, Hk. reflexivity.
    + rewrite read_dosages_Ok; [reflexivity|reflexivity|].
      rewrite Forall_forall in Hb. apply Hb. apply list_elem_of_lookup. eauto.
Qed.

Lemma X15_witness :
  exists idxs m,
    Forall2 (fun id k => Pgen.variant_idx_dict ex_session !! id = Some k)
            ["v2"; "v0"] idxs /\
    Pgen.read_dosages_list ex_session ["v2"; "v0"] []
      = (Ok (MkDataFrame m ["v2"; "v0"] ["a"; "b"; "c"]),
         [] ++ session_trace None [EvReadDosagesList idxs]) /\
    nd_rows m = 2 /\
    nd_cols m = 3 /\
    forall k v, idxs !! k = Some v ->
      exists row, nd_data m !! k = Some row /\
                  (read_dosages ex_store v None []).1 = Ok row.
Proof.
  apply (X15_Pgen_read_dosages_list_no_selection ex_session ["v2"; "v0"] []).
  - repeat split.
  - reflexivity.
  - apply (bool_decide_unpack _). vm_compute. reflexivity.
Defined.

(** X16: a stored selection whose positions are not strictly increasing (ids
    selected with [sort=False] out of store order, or an id selected twice)
    is handed to the decoder as it is: the full-table retrieval and, for
    known variant ids, the allele retrieval both end at the attempt to open
    the reader, with the decoder's error.  (Positions that do not fit 32
    bits, which no sample table gives, would end both at the conversion to
    [uint32] instead.) *)
Theorem X16_unordered_selection_refused `{Dtype D} (p : Pgen.t D)
    (sample_idxs : list nat) (variant_ids : list string) (tr : list event) :
  Pgen.sample_idxs p = Some sample_idxs ->
  strictly_increasing sample_idxs = false ->
  Forall (fun id => is_Some (Pgen.variant_idx_dict p !! id)) variant_ids ->
  Pgen.load_dosages_df p tr
    = (if forallb fits_uint32 sample_idxs
       then (Err DecoderError, tr ++ [EvOpen (Some sample_idxs)])
       else (Err OverflowError, tr)) /\
  Pgen.read_alleles_list p variant_ids tr
    = (if forallb fits_uint32 sample_idxs
       then (Err DecoderError, tr ++ [EvOpen (Some sample_idxs)])
       else (Err OverflowError, tr)).
Proof.
  intros Hsel Hbad Hknown.
  assert (subset_ok (Pgen.pgen_file p) (Some sample_idxs) = false) as Hrefused
    by (simpl; by rewrite Hbad).
  assert (exists idxs, mapM (dict_get (Pgen.variant_idx_dict p)) variant_ids = Ok idxs)
    as [idxs Hm].
  { induction Hknown as [|id l [k Hk] _ [idxs IH]]; [by exists []|].
    assert (dict_get (Pgen.variant_idx_dict p) id = Ok k) as Hg
      by (unfold dict_get; by rewrite Hk).
    exists (k :: idxs). rewrite mapM_result_cons, Hg. simpl. by rewrite IH. }
  unfold Pgen.load_dosages_df, Pgen.read_alleles_list,
    read_dosages_range, read_alleles_list.
  rewrite Hsel, Hm.
  destruct (forallb fits_uint32 sample_idxs) eqn:Hfits; split.
  - unfold mbind at 1, io_bind at 1.
    by rewrite (session_refused _ sample_idxs).
  - unfold mbind at 1, io_bind at 1, lift at 1.
    unfold mbind at 1, io_bind at 1.
    by rewrite (session_refused _ sample_idxs).
  - unfold mbind at 1, io_bind at 1.
    by rewrite (session_overflow _ sample_idxs).
  - unfold mbind at 1, io_bind at 1, lift at 1.
    unfold mbind at 1, io_bind at 1.
    by rewrite (session_overflow _ sample_idxs).
Qed.

Lemma X16_witness :
  Pgen.load_dosages_df (Pgen.with_selection ex_session ["c"; "a"] (Some [2; 0])) []
    = (Err DecoderError, [EvOpen (Some [2; 0])]) /\
  Pgen.read_alleles_list (Pgen.with_selection ex_session ["c"; "a"] (Some [2; 0]))
                         ["v0"] []
    = (Err DecoderError, [EvOpen (Some [2; 0])]).
Proof.
  apply (X16_unordered_selection_refused
           (Pgen.with_selection ex_session ["c"; "a"] (Some [2; 0])) [2; 0] ["v0"] []).
  - reflexivity.
  - reflexivity.
  - constructor; [|constructor]. eexists. reflexivity.
Defined.

(** ** Selecting every sample *)

Lemma positions_of_all (sil : list string) :
  NoDup sil -> position_of sil <$> sil = seq 0 (length sil).
Proof.
  intros Hnd. apply list_eq. intros i. rewrite list_lookup_fmap.
  destruct (sil !! i) as [x|] eqn:Hi; simpl.
  - rewrite lookup_seq_lt by (by eapply lookup_lt_Some). simpl. f_equal.
    assert (x ∈ sil) as Hx by (apply list_elem_of_lookup; eauto).
    apply (NoDup_lookup sil _ _ x Hnd); [|done]. by apply position_of_lookup.
  - symmetry. apply lookup_seq_ge. by apply lookup_ge_None.
Qed.

Lemma Sorted_le_seq (j n : nat) : Sorted le (seq j n).
Proof.
  revert j. induction n as [|n IH]; intros j; simpl; constructor; [apply IH|].
  destruct n; simpl; constructor. lia.
Qed.

Lemma sorted_positions_of_all (sil ids : list string) :
  NoDup sil -> ids ≡ₚ sil -> sorted_positions sil ids = seq 0 (length sil).
Proof.
  intros Hnd Hperm. unfold sorted_positions.
  apply (Sorted_unique le).
  - apply Sorted_merge_sort; apply _.
  - apply Sorted_le_seq.
  - rewrite merge_sort_Permutation, Hperm. by rewrite positions_of_all.
Qed.

(** The positions of all the samples of a file fit [uint32] exactly when the
    sample count is at most [2^32]. *)
Lemma all_positions_fit (n : nat) :
  forallb fits_uint32 (seq 0 n) = (Z.of_nat n <=? 4294967296)%Z.
Proof.
  destruct (Z.leb_spec (Z.of_nat n) 4294967296) as [Hle|Hgt].
  - apply forallb_forall. intros k Hk%in_seq. unfold fits_uint32.
    apply Z.ltb_lt. lia.
  - destruct (forallb fits_uint32 (seq 0 n)) eqn:Hall; [|reflexivity].
    destruct (Z_of_nat_complete 4294967296) as [big Hbig]; [lia|].
    rewrite forallb_forall in Hall. specialize (Hall big).
    unfold fits_uint32 in Hall. rewrite <- Hbig, Z.ltb_irrefl in Hall.
    symmetry. apply Hall. apply in_seq. lia.
Qed.

(** X17: when the sample ids of the file are unique, selecting every sample,
    in whatever order, makes the module-level [load_dosages_df] return the
    same frame as selecting none.  (A file of more than [2^32] samples,
    which the format cannot hold, would make the selection end at the
    conversion of its positions to [uint32].) *)
Theorem X17_select_all_is_no_selection `{Dtype D} (files : plink_files D)
    (ids : list string) (tr : list event) :
  files_consistent files ->
  NoDup (psam_index files) ->
  ids ≡ₚ psam_index files ->
  (load_dosages_df files (Some ids) tr).1
  = (if (Z.of_nat (length (psam_index files)) <=? 4294967296)%Z
     then (load_dosages_df files None tr).1
     else Err OverflowError).
Proof.
  intros [Hv Hs] Hnd Hperm.
  assert (Forall (fun id => id ∈ psam_index files) ids) as Hall
    by (rewrite Hperm; by apply Forall_forall).
  assert (length ids = length (psam_index files)) as Hlen
    by apply (Permutation_length Hperm).
  unfold load_dosages_df, Pgen.__init__.
  rewrite set_samples_sort_true by done.
  unfold mbind, io_bind, lift.
  cbn [Pgen.sample_id_list Pgen.set_samples].
  fold (sorted_positions (psam_index files) ids).
  rewrite (sorted_positions_of_all _ ids Hnd Hperm).
  unfold store_ids. rewrite fmap_lookup_seq.
  destruct (Z.leb_spec (Z.of_nat (length (psam_index files))) 4294967296)
    as [Hfit|Hbig].
  - rewrite !Pgen_load_dosages_df_Ok; simpl; try done.
    + unfold reader_of. simpl. by rewrite Hs.
    + rewrite sample_ct_num_samples. done.
    + rewrite sample_ct_num_samples. by rewrite length_seq.
    + rewrite <- (sorted_positions_of_all _ ids Hnd Hperm).
      apply (sorted_positions_accepted (pgen files) (psam_index files) ids);
        [done|done|done|].
      by rewrite Hperm.
  - unfold Pgen.load_dosages_df, read_dosages_range.
    cbn [Pgen.with_selection Pgen.sample_idxs Pgen.pgen_file Pgen.num_variants].
    unfold mbind at 1, io_bind at 1.
    rewrite (session_overflow (pgen files) (seq 0 (length (psam_index files)))).
    + reflexivity.
    + rewrite all_positions_fit. apply Z.leb_gt. lia.
Qed.

Lemma X17_witness :
  (load_dosages_df ex_files (Some ["c"; "a"; "b"]) []).1
  = (load_dosages_df ex_files None []).1.
Proof.
  apply (X17_select_all_is_no_selection ex_files ["c"; "a"; "b"] []).
  - split; reflexivity.
  - apply (bool_decide_unpack _). vm_compute. reflexivity.
  - change (["c"; "a"; "b"] ≡ₚ ["a"; "b"; "c"]).
    etrans; [apply perm_swap|]. apply perm_skip, perm_swap.
Defined.
